(** * Report export service (export.service.ts): a shallow embedding

    The embedded program is the server's export service
    (src/unnamed/part_007): the four renderers [exportToCsv],
    [exportToExcel], [exportToPdf], [exportToJson], the filename and
    directory helpers, and the six assemblers [exportOrders] ..
    [exportVendors].

    JavaScript values are an inductive type; effects (clock, data source,
    file system) are threaded through an explicit world by a state and
    exception monad.  Calls to the request logger have no effect on
    results and are left out.  A string is a sequence of bytes: the texts
    of the service are ASCII, one byte per character, and a character
    beyond ASCII stands as its UTF-8 bytes. *)

From Stdlib Require Import ZArith QArith Qround String Ascii List Lia DecimalString Sorted.
From stdpp Require Import base gmap strings list.

Set Warnings "-register-all".

Local Open Scope string_scope.
Local Open Scope list_scope.
Local Open Scope Z_scope.

(** ** JavaScript values *)

Module Js.

(** A JS number: the exact rational it denotes, or NaN.  Where the
    binary representation of a number decides a result (printing a
    number that no double holds exactly) the result is the host's, see
    [Host]; infinities and the sign of zero are outside the model. *)
Inductive jsnum : Type :=
| NaN
| Num (q : Q).

(** Data as the service handles it.  An object is its own properties in
    insertion order; what a value inherits through its prototype chain is
    read through the host ([inherited] below).  [JNative] is a function
    or object of the engine itself, such as [Number.prototype.toFixed],
    known by its name. *)
Inductive jsval : Type :=
| JUndefined
| JNull
| JBool (b : bool)
| JNum (n : jsnum)
| JStr (s : string)
| JObj (props : list (string * jsval))
| JNative (id : string).

Inductive JsError : Type :=
| TypeError (msg : string)
| ApiError (msg : string) (statusCode : Z)
| DbError (msg : string)
| IoError (msg : string).

(** Completion of a JS expression: a value or a thrown error. *)
Inductive Exn (A : Type) : Type :=
| Ok (a : A)
| Throw (e : JsError).
Arguments Ok {A} a.
Arguments Throw {A} e.

Definition exn_bind {A B} (m : Exn A) (k : A -> Exn B) : Exn B :=
  match m with
  | Ok a => k a
  | Throw e => Throw e
  end.

Definition num_of_Z (z : Z) : jsval := JNum (Num (inject_Z z)).

(** ToBoolean. *)
Definition truthy (v : jsval) : bool :=
  match v with
  | JUndefined | JNull => false
  | JBool b => b
  | JNum NaN => false
  | JNum (Num q) => negb (Qeq_bool q 0)
  | JStr s => negb (String.eqb s "")
  | JObj _ | JNative _ => true
  end.

Definition is_undefined (v : jsval) : bool :=
  match v with JUndefined => true | _ => false end.

Definition is_null (v : jsval) : bool :=
  match v with JNull => true | _ => false end.

(** [v === "lit"] for a string literal. *)
Definition strict_eq_str (v : jsval) (lit : string) : bool :=
  match v with JStr s => String.eqb s lit | _ => false end.

Fixpoint assoc (k : string) (props : list (string * jsval)) : option jsval :=
  match props with
  | [] => None
  | (k', v) :: rest => if String.eqb k k' then Some v else assoc k rest
  end.

Definition nat_to_string (n : nat) : string :=
  NilZero.string_of_uint (Nat.to_uint n).

(** [s[key]] for a canonical array index [key] below the length. *)
Fixpoint char_at_key (i : nat) (s : string) (key : string) : option ascii :=
  match s with
  | EmptyString => None
  | String c rest =>
      if String.eqb key (nat_to_string i) then Some c
      else char_at_key (S i) rest key
  end.

(** Own property of a primitive string: its length and its characters. *)
Definition string_prop (s : string) (key : string) : option jsval :=
  if String.eqb key "length" then Some (num_of_Z (Z.of_nat (String.length s)))
  else match char_at_key 0 s key with
       | Some c => Some (JStr (String c EmptyString))
       | None => None
       end.

(** The own property [key] of a value, if it has one. *)
Definition ownProp (obj : jsval) (key : string) : option jsval :=
  match obj with
  | JObj props => assoc key props
  | JStr s => string_prop s key
  | _ => None
  end.

(** [s.split(sep)] for a one-character separator. *)
Fixpoint split (sep : ascii) (s : string) : list string :=
  match s with
  | EmptyString => [EmptyString]
  | String c rest =>
      if Ascii.eqb c sep then EmptyString :: split sep rest
      else match split sep rest with
           | [] => [String c EmptyString]
           | h :: t => String c h :: t
           end
  end.

(** [arr.reduce(f, init)] with a callback that may throw. *)
Fixpoint reduce {A B} (f : A -> B -> Exn A) (l : list B) (init : A) : Exn A :=
  match l with
  | [] => Ok init
  | x :: rest => exn_bind (f init x) (reduce f rest)
  end.

(** *** Strings *)

(** [toUpperCase]: the letters a-z are mapped, every other byte is left
    as it is, as are the characters that have no upper-case form.  The
    upper-case forms of letters beyond ASCII are outside the model. *)
Definition upper_ascii (c : ascii) : ascii :=
  let n := nat_of_ascii c in
  if ((97 <=? n)%nat && (n <=? 122)%nat)%bool then ascii_of_nat (n - 32) else c.

Fixpoint toUpperCase (s : string) : string :=
  match s with
  | EmptyString => EmptyString
  | String c rest => String (upper_ascii c) (toUpperCase rest)
  end.

(** [s.charAt(0)] *)
Definition charAt0 (s : string) : string :=
  match s with
  | EmptyString => EmptyString
  | String c _ => String c EmptyString
  end.

(** [s.slice(1)] *)
Definition slice1 (s : string) : string :=
  match s with
  | EmptyString => EmptyString
  | String _ rest => rest
  end.

Fixpoint string_drop (n : nat) (s : string) : string :=
  match n, s with
  | O, _ => s
  | S n', EmptyString => EmptyString
  | S n', String _ rest => string_drop n' rest
  end.

Fixpoint string_take (n : nat) (s : string) : string :=
  match n, s with
  | O, _ => EmptyString
  | S n', EmptyString => EmptyString
  | S n', String c rest => String c (string_take n' rest)
  end.

(** [s.substring(s.length - k)]: a negative start is clamped to 0. *)
Definition last_chars (k : nat) (s : string) : string :=
  string_drop (String.length s - k)%nat s.

(** [s.replace(/[:.]/g, "-")] *)
Fixpoint replaceColonDot (s : string) : string :=
  match s with
  | EmptyString => EmptyString
  | String c rest =>
      String (if (Ascii.eqb c ":" || Ascii.eqb c ".")%bool then "-"%char else c)
             (replaceColonDot rest)
  end.

(** [arr.join(sep)] *)
Definition join (sep : string) (l : list string) : string := String.concat sep l.

(** *** Numbers *)

(** Decimal digits of a natural number given as a non-negative [Z]. *)
Definition digits (z : Z) : string :=
  NilZero.string_of_uint (N.to_uint (Z.to_N z)).

Definition Z_to_string (z : Z) : string :=
  if z <? 0 then "-" +:+ digits (- z) else digits z.

(** Zero-padding on the left up to [width] characters. *)
Fixpoint zeros (n : nat) : string :=
  match n with O => EmptyString | S n' => String "0" (zeros n') end.

Definition padStart (width : nat) (s : string) : string :=
  zeros (width - String.length s) +:+ s.

(** What the host's JavaScript engine, the libraries and the database
    decide and the service only calls. *)
Class Host : Type := {
  (** [obj[key]] on a value without own property [key]: what its
      prototype chain holds under that name ([constructor] and [toString]
      for an object, [toFixed] for a number, ...), [JUndefined] when it
      holds nothing; for a function or object of the engine, any of its
      members.  Reading a member is taken to yield a value; a member
      whose read throws is outside the model. *)
  inherited : jsval -> string -> jsval;
  (** [String(f)] for a function or object of the engine *)
  Native_toString : string -> string;
  (** [Number(s)] on a string (ECMAScript StringToNumber) *)
  StringToNumber : string -> jsnum;
  (** [Date.parse(s)]: the time value, or [None] for an invalid date *)
  Date_parse : string -> option Z;
  (** [Number.prototype.toString] where the value is not an integer
      below 2^53 in magnitude *)
  Number_toString_other : Q -> string;
  (** [Number.prototype.toFixed(2)] of a number that no double holds
      exactly: the digits of the nearest double *)
  toFixed2_other : Q -> string;
  (** [date.toLocaleString()] and [date.toLocaleDateString()] for the
      process locale and time zone *)
  Date_toLocaleString : Z -> string;
  Date_toLocaleDateString : Z -> string;
  (** [JSON.stringify(data, null, 2)] *)
  JSON_stringify : list jsval -> string;
  (** json2csv: the text of one data line for the given field list *)
  json2csv_line : list string -> jsval -> string;
  (** SQL [AVG] over a group, from its sum and its count: the quotient
      as the column's type rounds it *)
  sqlAvg : Q -> Q -> Q;
}.

Section WithHost.
Context `{Host}.

(** [obj[key]]: reading a property of undefined or null throws; an own
    property comes before an inherited member. *)
Definition getProp (obj : jsval) (key : string) : Exn jsval :=
  match obj with
  | JUndefined =>
      Throw (TypeError ("Cannot read properties of undefined (reading '" +:+ key +:+ "')"))
  | JNull =>
      Throw (TypeError ("Cannot read properties of null (reading '" +:+ key +:+ "')"))
  | _ => Ok (match ownProp obj key with
             | Some v => v
             | None => inherited obj key
             end)
  end.

Definition is_integer (q : Q) : bool := (Qden (Qred q) =? 1)%positive.

(** Integers below 2^53 in magnitude are doubles, and print as their
    decimal digits. *)
Definition safeInteger : Z := 2 ^ 53.

(** [Number.prototype.toString()] *)
Definition Number_toString (n : jsnum) : string :=
  match n with
  | NaN => "NaN"
  | Num q =>
      if (is_integer q && (Z.abs (Qnum (Qred q)) <? safeInteger))%bool
      then Z_to_string (Qnum (Qred q))
      else Number_toString_other q
  end.

Fixpoint is_pow2 (p : positive) : bool :=
  match p with
  | xH => true
  | xO p' => is_pow2 p'
  | xI _ => false
  end.

(** A rational that a double holds exactly: an integer below 2^53 in
    magnitude over a power of two up to 2^1022. *)
Definition is_double (q : Q) : bool :=
  (is_pow2 (Qden (Qred q)) && (Z.abs (Qnum (Qred q)) <? safeInteger)
   && (Pos.size_nat (Qden (Qred q)) <=? 1023)%nat)%bool.

(** [Number.prototype.toFixed(2)] (ECMA-262 21.1.3.3) rounds the exact
    value of the double to the nearest hundredth, ties to the larger
    magnitude. *)
Definition toFixed2 (n : jsnum) : string :=
  match n with
  | NaN => "NaN"
  | Num q =>
      if is_double q then
        let neg := Qlt_le_dec q 0 in
        let x := if neg then Qopp q else q in
        let k := Qfloor (x * inject_Z 100 + (1 # 2)) in
        (if neg then "-" else "") +:+ digits (k / 100) +:+ "."
          +:+ padStart 2 (digits (k mod 100))
      else toFixed2_other q
  end.

(** [Number(v)] *)
Definition Number (v : jsval) : jsnum :=
  match v with
  | JUndefined => NaN
  | JNull => Num 0
  | JBool b => Num (if b then 1 else 0)
  | JNum n => n
  | JStr s => StringToNumber s
  | JObj _ | JNative _ => NaN
  end.

(** [v.toString()] on a value that is neither null nor undefined,
    which is also how a template literal prints it. *)
Definition toString (v : jsval) : string :=
  match v with
  | JUndefined => "undefined"
  | JNull => "null"
  | JBool b => if b then "true" else "false"
  | JNum n => Number_toString n
  | JStr s => s
  | JObj _ => "[object Object]"
  | JNative id => Native_toString id
  end.

(** The largest time value of a Date: 100,000,000 days from the epoch. *)
Definition maxTime : Z := 8640000000000000.

(** TimeClip: a time beyond [maxTime] in magnitude makes an Invalid Date
    ([None]); a fraction of a millisecond is cut off. *)
Definition timeClip (q : Q) : option Z :=
  let t := Qnum (Qred q) ÷ Zpos (Qden (Qred q)) in
  if Z.abs t <=? maxTime then Some t else None.

(** [new Date(v)] for a single argument: the time value in milliseconds,
    [None] for an Invalid Date. *)
Definition newDate (v : jsval) : option Z :=
  match v with
  | JUndefined => None
  | JNull => Some 0
  | JBool b => Some (if b then 1 else 0)
  | JNum NaN => None
  | JNum (Num q) => timeClip q
  | JStr s => Date_parse s
  | JObj _ => Date_parse "[object Object]"
  | JNative id => Date_parse (Native_toString id)
  end.

End WithHost.

(** *** Date.prototype.toISOString *)

(** Civil date (year, month, day) of a day count since 1970-01-01. *)
Definition civil_from_days (days : Z) : Z * Z * Z :=
  let z := days + 719468 in
  let era := z / 146097 in
  let doe := z - era * 146097 in
  let yoe := (doe - doe / 1460 + doe / 36524 - doe / 146096) / 365 in
  let doy := doe - (365 * yoe + yoe / 4 - yoe / 100) in
  let mp := (5 * doy + 2) / 153 in
  let d := doy - (153 * mp + 2) / 5 + 1 in
  let m := if mp <? 10 then mp + 3 else mp - 9 in
  let y := yoe + era * 400 in
  (if m <=? 2 then y + 1 else y, m, d).

Definition isoYear (y : Z) : string :=
  if ((0 <=? y) && (y <=? 9999))%bool then padStart 4 (digits y)
  else (if y <? 0 then "-" else "+") +:+ padStart 6 (digits (Z.abs y)).

(** [new Date(t).toISOString()]: YYYY-MM-DDTHH:mm:ss.sssZ in UTC. *)
Definition toISOString (t : Z) : string :=
  let '(y, m, d) := civil_from_days (t / 86400000) in
  let ms := t mod 86400000 in
  isoYear y +:+ "-" +:+ padStart 2 (digits m) +:+ "-" +:+ padStart 2 (digits d)
  +:+ "T" +:+ padStart 2 (digits (ms / 3600000))
  +:+ ":" +:+ padStart 2 (digits (ms / 60000 mod 60))
  +:+ ":" +:+ padStart 2 (digits (ms / 1000 mod 60))
  +:+ "." +:+ padStart 3 (digits (ms mod 1000)) +:+ "Z".

End Js.
Import Js.

(** ** Field projection (exportToExcel line 121, exportToPdf line 227)

    [(obj, key) => (obj && obj[key] !== undefined ? obj[key] : null)] *)
Section Projection.
Context `{Host}.

Definition projectStep (obj : jsval) (key : string) : Exn jsval :=
  if truthy obj then
    exn_bind (getProp obj key) (fun v =>
      if negb (is_undefined v) then getProp obj key else Ok JNull)
  else Ok JNull.

(** [field.split(".").reduce(projectStep, item)] *)
Definition projectField (item : jsval) (field : string) : Exn jsval :=
  reduce projectStep (split "." field) item.

End Projection.

(** ** The data source (Prisma client) as the service sees it *)

Module Db.

(** A Prisma range condition: [{ gte, lte, gt }], each optional. *)
Record Range (A : Type) : Type := mkRange {
  gte : option A;
  lte : option A;
  gt : option A;
}.
Arguments mkRange {A} gte lte gt.
Arguments gte {A} r.
Arguments lte {A} r.
Arguments gt {A} r.

(** A [Date] object: its time value, [None] when invalid. *)
Definition jsdate : Type := option Z.

Record OrderWhere : Type := mkOrderWhere {
  ow_createdAt : option (Range jsdate);
  ow_status : option jsval;
  ow_paymentStatus : option jsval;
}.

Record ProductWhere : Type := mkProductWhere {
  pw_categoryId : option jsval;
  pw_vendorId : option jsval;
  pw_price : option (Range jsnum);
  pw_quantity : option (Range jsnum);
  pw_isFeatured : option bool;
  pw_isActive : option bool;
}.

Record UserWhere : Type := mkUserWhere {
  uw_role : string;
  uw_createdAt : option (Range jsdate);
  uw_isActive : option bool;
}.

Record VendorWhere : Type := mkVendorWhere {
  vw_status : option jsval;
  vw_createdAt : option (Range jsdate);
}.

(** [orderBy: { column: direction }] *)
Definition OrderBy : Type := (string * string)%type.

(** Rows as the [include]/[select] clauses of each query shape them. *)
Record OrderUser : Type := mkOrderUser {
  ou_email : string; ou_firstName : string; ou_lastName : string;
}.

Record Address : Type := mkAddress {
  street : string; city : string; state : string;
  postalCode : string; country : string;
}.

Record ItemProduct : Type := mkItemProduct { ip_name : string; ip_sku : string }.

Record OrderItem : Type := mkOrderItem {
  oi_product : option ItemProduct;
  oi_quantity : Z;
}.

Record Order : Type := mkOrder {
  o_id : string;
  o_orderNumber : option string;
  o_user : option OrderUser;
  o_status : string;
  o_paymentStatus : string;
  o_totalAmount : Q;
  o_subtotalAmount : Q;
  o_taxAmount : Q;
  o_shippingAmount : Q;
  o_discountAmount : option Q;
  o_shippingAddress : option Address;
  o_paymentMethod : jsval;
  o_createdAt : Z;
  o_items : list OrderItem;
}.

Record Product : Type := mkProduct {
  p_id : string;
  p_name : string;
  p_sku : string;
  p_category : option string;       (* category.name *)
  p_vendor : option string;         (* vendor.businessName *)
  p_price : Q;
  p_compareAtPrice : option Q;
  p_quantity : Z;
  p_isFeatured : bool;
  p_isActive : bool;
  p_reviews : list Q;               (* reviews[i].rating *)
  p_createdAt : Z;
  p_updatedAt : Z;
}.

Record CustomerOrder : Type := mkCustomerOrder {
  co_totalAmount : Q;
  co_status : string;
}.

Record Customer : Type := mkCustomer {
  c_id : string;
  c_email : string;
  c_firstName : string;
  c_lastName : string;
  c_phone : option string;
  c_country : option string;
  c_isActive : bool;
  c_loyaltyPoints : option Z;
  c_createdAt : Z;
  c_lastLoginAt : option Z;
  c_orders : list CustomerOrder;
  c_addresses : list Address;
}.

Record VendorProduct : Type := mkVendorProduct { vp_id : string; vp_price : Q }.

Record Vendor : Type := mkVendor {
  v_id : string;
  v_businessName : string;
  v_contactEmail : string;
  v_contactPhone : option string;
  v_status : string;
  v_commissionRate : Q;
  v_products : list VendorProduct;
  v_createdAt : Z;
  v_updatedAt : Z;
}.

(** The date expression spliced into the sales query with [Prisma.raw]:
    [DATE("createdAt")] or [DATE_TRUNC('unit', "createdAt")]. *)
Inductive SqlDateExpr : Type :=
| SqlDate
| SqlDateTrunc (unit : string).

(** The raw sales query: the spliced date expression and the two bound
    parameters; the rest of its text is fixed. *)
Record SalesQuery : Type := mkSalesQuery {
  sq_dateFormat : SqlDateExpr;
  sq_startDate : jsdate;
  sq_endDate : jsdate;
}.

(** One result row of the sales query; a column is [None] when SQL
    returns NULL.  Unquoted aliases come back in lower case. *)
Record SalesRow : Type := mkSalesRow {
  sr_date : Z;
  sr_sales : option Q;
  sr_orders : option Q;
  sr_avgordervalue : option Q;
  sr_itemssold : option Q;
}.

Record DataSource : Type := mkDataSource {
  order_findMany : OrderWhere -> OrderBy -> Exn (list Order);
  product_findMany : ProductWhere -> OrderBy -> Exn (list Product);
  user_findMany : UserWhere -> OrderBy -> Exn (list Customer);
  vendor_findMany : VendorWhere -> OrderBy -> Exn (list Vendor);
  queryRaw_sales : SalesQuery -> Exn (list SalesRow);
}.

End Db.
Import Db.

(** ** Exported files *)

(** The sheet ExcelJS is given: its name, its rows of cell values, the
    header row first, and the widths set on its columns, left to right
    (none before the columns are fitted).  Fonts and fills are styling
    and are not recorded. *)
Record Worksheet : Type := mkWorksheet {
  ws_name : string;
  ws_rows : list (list jsval);
  ws_widths : list Z;
}.

Inductive Band : Type :=
| HeaderBand
| DataBand (rowIndex : nat).

(** The drawing calls made on the PDFKit document. *)
Inductive PdfOp : Type :=
| PText (fontSize : Z) (text : string) (align : string)
| PMoveDown (lines : Z)
| PCell (band : Band) (x y w h : Z) (fill : string) (text : string)
| PAddPage.

(** A drawing call together with the index of the page it lands on. *)
Definition PdfDoc : Type := list (nat * PdfOp).

Inductive FileContent : Type :=
| TextFile (text : string)
| XlsxFile (sheet : Worksheet)
| PdfFile (doc : PdfDoc)
| Truncated (bytes : nat).

(** ** The world and the monad of the service *)

Record World : Type := mkWorld {
  now : Z;                          (* the clock read by [new Date()] *)
  cwd : string;                     (* [process.cwd()] *)
  db : DataSource;
  dbCalls : nat;                    (* queries sent to the data source *)
  dirs : gset string;
  files : gmap string FileContent;
  writeFault : option nat;          (* [Some k]: a write fails after k bytes *)
}.

Definition M (A : Type) : Type := World -> Exn A * World.

Definition ret {A} (a : A) : M A := fun w => (Ok a, w).

Definition bind {A B} (m : M A) (k : A -> M B) : M B :=
  fun w => match m w with
           | (Ok a, w') => k a w'
           | (Throw e, w') => (Throw e, w')
           end.

Definition throw {A} (e : JsError) : M A := fun w => (Throw e, w).

Definition lift {A} (r : Exn A) : M A := fun w => (r, w).

(** [try { body } catch (error) { handler(error) }] *)
Definition tryCatch {A} (body : M A) (handler : JsError -> M A) : M A :=
  fun w => match body w with
           | (Ok a, w') => (Ok a, w')
           | (Throw e, w') => handler e w'
           end.

Notation "'let!' x ':=' m 'in' k" := (bind m (fun x => k))
  (at level 10, x name, m at level 100, k at level 200).

(** [error.message] *)
Definition message (e : JsError) : string :=
  match e with
  | TypeError m | ApiError m _ | DbError m | IoError m => m
  end.

Definition set_files (f : gmap string FileContent) (w : World) : World :=
  mkWorld (now w) (cwd w) (db w) (dbCalls w) (dirs w) f (writeFault w).

Definition set_dirs (d : gset string) (w : World) : World :=
  mkWorld (now w) (cwd w) (db w) (dbCalls w) d (files w) (writeFault w).

Definition count_call (w : World) : World :=
  mkWorld (now w) (cwd w) (db w) (S (dbCalls w)) (dirs w) (files w) (writeFault w).

(** [new Date()] read as a time value. *)
Definition Date_now : M Z := fun w => (Ok (now w), w).

Fixpoint endsWithSlash (s : string) : bool :=
  match s with
  | EmptyString => false
  | String c EmptyString => Ascii.eqb c "/"
  | String _ rest => endsWithSlash rest
  end.

(** [path.join(a, b)] for a normalized absolute directory [a] and a
    plain segment [b]: one separator between them, none added after the
    root directory. *)
Definition path_join (a b : string) : string :=
  if endsWithSlash a then a +:+ b else a +:+ "/" +:+ b.

(** [fs.writeFileSync(path, text)]: opens the final path, writes the
    text there; on a device error the bytes already written stay. *)
Definition writeFileSync (path : string) (text : string) : M unit :=
  fun w => match writeFault w with
           | None => (Ok tt, set_files (<[path := TextFile text]> (files w)) w)
           | Some k =>
               (Throw (IoError "ENOSPC: no space left on device, write"),
                set_files (<[path := TextFile (string_take k text)]> (files w)) w)
           end.

(** [fs.createWriteStream(path)]: the file is opened for writing, empty. *)
Definition createWriteStream (path : string) : M unit :=
  fun w => (Ok tt, set_files (<[path := Truncated 0]> (files w)) w).

(** Writing an encoded document (workbook or PDF) and waiting for the
    write to finish or fail. *)
Definition writeDocument (path : string) (content : FileContent) : M unit :=
  fun w => match writeFault w with
           | None => (Ok tt, set_files (<[path := content]> (files w)) w)
           | Some k =>
               (Throw (IoError "ENOSPC: no space left on device, write"),
                set_files (<[path := Truncated k]> (files w)) w)
           end.

(** A query sent to the data source: counted, then answered by it. *)
Definition query {A} (run : DataSource -> Exn A) : M A :=
  fun w => (run (db w), count_call w).

(** ** Export formats and data types (lines 12-34) *)

Inductive ExportFormat : Type := CSV | EXCEL | PDF | JSON.

Definition format_value (f : ExportFormat) : string :=
  match f with
  | CSV => "csv"
  | EXCEL => "excel"
  | PDF => "pdf"
  | JSON => "json"
  end.

Inductive ExportDataType : Type :=
| ORDERS | PRODUCTS | CUSTOMERS | SALES | INVENTORY
| LOYALTY_POINTS | LOYALTY_REDEMPTIONS | LOYALTY_TIERS | LOYALTY_REFERRALS
| VENDORS | CATEGORIES | REVIEWS | ANALYTICS.

Definition dataType_value (d : ExportDataType) : string :=
  match d with
  | ORDERS => "orders"
  | PRODUCTS => "products"
  | CUSTOMERS => "customers"
  | SALES => "sales"
  | INVENTORY => "inventory"
  | LOYALTY_POINTS => "loyalty_points"
  | LOYALTY_REDEMPTIONS => "loyalty_redemptions"
  | LOYALTY_TIERS => "loyalty_tiers"
  | LOYALTY_REFERRALS => "loyalty_referrals"
  | VENDORS => "vendors"
  | CATEGORIES => "categories"
  | REVIEWS => "reviews"
  | ANALYTICS => "analytics"
  end.

(** ** File staging (lines 42-57) *)

Definition generateFilename (dataType : ExportDataType) (format : ExportFormat)
  : M string :=
  let! t := Date_now in
  let timestamp := replaceColonDot (toISOString t) in
  ret (dataType_value dataType +:+ "-export-" +:+ timestamp +:+ "."
       +:+ format_value format).

(** [fs.existsSync] is asked about a directory: the path of the export
    directory is taken not to be occupied by a regular file. *)
Definition ensureExportDirectory : M string :=
  fun w =>
    let exportDir := path_join (cwd w) "exports" in
    if decide (exportDir ∈ dirs w) then (Ok exportDir, w)
    else (Ok exportDir, set_dirs ({[exportDir]} ∪ dirs w) w).

(** ** Renderers *)

Section Renderers.
Context `{Host}.

(** *** Delimited text (lines 67-92), through json2csv's [Parser] *)

Record FieldInfo : Type := mkFieldInfo { label : string; value : string }.

(** A field given as a string is both the column label and the path of
    the value. *)
Definition Parser_fields (fields : list string) : list FieldInfo :=
  map (fun f => mkFieldInfo f f) fields.

Definition dquote : ascii := "034".

Fixpoint escapeQuotes (s : string) : string :=
  match s with
  | EmptyString => EmptyString
  | String c rest =>
      if Ascii.eqb c dquote then String dquote (String dquote (escapeQuotes rest))
      else String c (escapeQuotes rest)
  end.

Definition csvQuote (s : string) : string :=
  String dquote (escapeQuotes s) +:+ String dquote EmptyString.

Definition Parser_header (fields : list string) : string :=
  join "," (map (fun fi => csvQuote (label fi)) (Parser_fields fields)).

Definition eol : string := String "010" EmptyString.

(** [new Parser({ fields }).parse(data)] *)
Definition Parser_parse (fields : list string) (data : list jsval) : string :=
  join eol (Parser_header fields :: map (json2csv_line fields) data).

Definition exportToCsv (data : list jsval) (fields : list string)
    (dataType : ExportDataType) : M string :=
  tryCatch
    (let csv := Parser_parse fields data in
     let! exportDir := ensureExportDirectory in
     let! filename := generateFilename dataType CSV in
     let filePath := path_join exportDir filename in
     let! _ := writeFileSync filePath csv in
     ret filePath)
    (fun error =>
       throw (ApiError ("Failed to export data to CSV: " +:+ message error) 500)).

(** *** Workbook (lines 102-159) *)

(** [field.charAt(0).toUpperCase() + field.slice(1)] *)
Definition capitalize (field : string) : string :=
  toUpperCase (charAt0 field) +:+ slice1 field.

Fixpoint exn_map {A B} (f : A -> Exn B) (l : list A) : Exn (list B) :=
  match l with
  | [] => Ok []
  | x :: rest =>
      exn_bind (f x) (fun y => exn_bind (exn_map f rest) (fun ys => Ok (y :: ys)))
  end.

(** [value !== null && value !== undefined ? value : ""] *)
Definition excelCell (v : jsval) : jsval :=
  if (negb (is_null v) && negb (is_undefined v))%bool then v else JStr "".

Definition excelRow (fields : list string) (item : jsval) : Exn (list jsval) :=
  exn_map (fun field => exn_bind (projectField item field)
                          (fun v => Ok (excelCell v))) fields.

(** The sheet once the header row and the data rows are added
    (lines 105-125). *)
Definition excelSheet (data : list jsval) (fields : list string)
    (dataType : ExportDataType) : Exn Worksheet :=
  exn_bind (exn_map (excelRow fields) data) (fun rows =>
    Ok (mkWorksheet (dataType_value dataType)
          (map (fun f => JStr (capitalize f)) fields :: rows) [])).

(** [cell.value ? cell.value.toString().length : 10] *)
Definition cellLength (v : jsval) : Z :=
  if truthy v then Z.of_nat (String.length (toString v)) else 10.

(** The [eachCell] loop over one column: the running maximum from 0. *)
Definition maxLength (cells : list jsval) : Z :=
  fold_left (fun m v => if cellLength v >? m then cellLength v else m) cells 0.

(** [column.width = maxLength < 10 ? 10 : maxLength + 2] *)
Definition autoFitWidth (cells : list jsval) : Z :=
  if maxLength cells <? 10 then 10 else maxLength cells + 2.

(** Column [i] of a sheet, top to bottom. *)
Definition sheetColumn (sheet : Worksheet) (i : nat) : list jsval :=
  map (fun row => nth i row (JStr "")) (ws_rows sheet).

(** The columns of a sheet: as many as its longest row has cells. *)
Definition columnCount (sheet : Worksheet) : nat :=
  fold_right Nat.max 0%nat (map (fun row => length row) (ws_rows sheet)).

(** The auto-fit loop (lines 136-145), [worksheet.columns.forEach]: a
    sheet without any cell has no columns, [worksheet.columns] is null
    and the call throws. *)
Definition autoFit (sheet : Worksheet) : Exn Worksheet :=
  match columnCount sheet with
  | O => Throw (TypeError "Cannot read properties of null (reading 'forEach')")
  | S n =>
      Ok (mkWorksheet (ws_name sheet) (ws_rows sheet)
            (map (fun i => autoFitWidth (sheetColumn sheet i)) (seq 0 (S n))))
  end.

Definition exportToExcel (data : list jsval) (fields : list string)
    (dataType : ExportDataType) : M string :=
  tryCatch
    (let! rows := lift (excelSheet data fields dataType) in
     let! sheet := lift (autoFit rows) in
     let! exportDir := ensureExportDirectory in
     let! filename := generateFilename dataType EXCEL in
     let filePath := path_join exportDir filename in
     let! _ := writeDocument filePath (XlsxFile sheet) in
     ret filePath)
    (fun error =>
       throw (ApiError ("Failed to export data to Excel: " +:+ message error) 500)).

(** *** Paginated document (lines 170-267) *)

Definition tableTop : Z := 150.
Definition tableLeft : Z := 50.
Definition maxWidth : Z := 500.

(** PDFKit's default page is LETTER, 612 x 792 points. *)
Definition letterHeight : Z := 792.

(** [Math.floor(maxWidth / totalColumns)], one entry per field. *)
Definition columnWidths (fields : list string) : list Z :=
  map (fun _ => maxWidth / Z.of_nat (length fields)) fields.

(** The header band: one filled cell per field, all at [tableTop]. *)
Fixpoint pdfHeader (fields : list string) (i : nat) (widths : list Z)
    (currentLeft : Z) : PdfDoc :=
  match fields with
  | [] => []
  | field :: rest =>
      let w := nth i widths 0 in
      (0%nat, PCell HeaderBand currentLeft tableTop w 30 "#e0e0e0" (capitalize field))
        :: pdfHeader rest (S i) widths (currentLeft + w)
  end.

(** [value !== null && value !== undefined ? value.toString() : ""] *)
Definition displayValue (v : jsval) : string :=
  if (negb (is_null v) && negb (is_undefined v))%bool then toString v else "".

(** The cells of one data row, left to right. *)
Fixpoint pdfRow (item : jsval) (rowIndex page : nat) (currentTop : Z)
    (fields : list string) (colIndex : nat) (widths : list Z)
    (currentLeft : Z) : Exn PdfDoc :=
  match fields with
  | [] => Ok []
  | field :: rest =>
      exn_bind (projectField item field) (fun v =>
        let w := nth colIndex widths 0 in
        let fill := if Nat.even rowIndex then "#ffffff" else "#f9f9f9" in
        exn_bind (pdfRow item rowIndex page currentTop rest (S colIndex) widths
                         (currentLeft + w))
          (fun cells =>
             Ok ((page, PCell (DataBand rowIndex) currentLeft currentTop w 25 fill
                               (displayValue v)) :: cells)))
  end.

(** The row loop: draw the row, advance by 25, and start a new page at
    top 50 once [currentTop > doc.page.height - 100].  Returns the calls,
    the page and the top the loop ends on. *)
Fixpoint pdfRows (pageHeight : Z) (fields : list string) (widths : list Z)
    (data : list jsval) (rowIndex page : nat) (currentTop : Z)
  : Exn (PdfDoc * nat * Z) :=
  match data with
  | [] => Ok ([], page, currentTop)
  | item :: rest =>
      exn_bind (pdfRow item rowIndex page currentTop fields 0 widths tableLeft)
        (fun cells =>
           let top' := currentTop + 25 in
           let '(brk, page', top'') :=
             if top' >? pageHeight - 100
             then ([(S page, PAddPage)], S page, 50)
             else ([], page, top') in
           exn_bind (pdfRows pageHeight fields widths rest (S rowIndex) page' top'')
             (fun '(ops, pageEnd, topEnd) =>
                Ok (cells ++ brk ++ ops, pageEnd, topEnd)))
  end.

Definition pdfLayout (pageHeight : Z) (title generatedOn : string)
    (fields : list string) (data : list jsval) : Exn PdfDoc :=
  let widths := columnWidths fields in
  exn_bind (pdfRows pageHeight fields widths data 0 0 (tableTop + 30))
    (fun '(rows, pageEnd, _) =>
       Ok ([(0%nat, PText 20 title "center");
            (0%nat, PMoveDown 1);
            (0%nat, PText 10 ("Generated on: " +:+ generatedOn) "center");
            (0%nat, PMoveDown 2)]
           ++ pdfHeader fields 0 widths tableLeft
           ++ rows
           ++ [(pageEnd, PText 10 ("Total Records: "
                                   +:+ Z_to_string (Z.of_nat (length data))) "right")])).

Definition exportToPdf (data : list jsval) (fields : list string)
    (dataType : ExportDataType) (title : string) : M string :=
  tryCatch
    (let! exportDir := ensureExportDirectory in
     let! filename := generateFilename dataType PDF in
     let filePath := path_join exportDir filename in
     let! _ := createWriteStream filePath in
     let! t := Date_now in
     let! doc := lift (pdfLayout letterHeight title (Date_toLocaleString t) fields data) in
     let! _ := writeDocument filePath (PdfFile doc) in
     ret filePath)
    (fun error =>
       throw (ApiError ("Failed to export data to PDF: " +:+ message error) 500)).

(** *** Structured dump (lines 276-293) *)

Definition exportToJson (data : list jsval) (dataType : ExportDataType) : M string :=
  tryCatch
    (let! exportDir := ensureExportDirectory in
     let! filename := generateFilename dataType JSON in
     let filePath := path_join exportDir filename in
     let! _ := writeFileSync filePath (JSON_stringify data) in
     ret filePath)
    (fun error =>
       throw (ApiError ("Failed to export data to JSON: " +:+ message error) 500)).

(** The [switch (format)] that ends every assembler. *)
Definition renderAs (format : string) (data : list jsval) (fields : list string)
    (dataType : ExportDataType) (title : string) : M string :=
  if String.eqb format (format_value CSV) then exportToCsv data fields dataType
  else if String.eqb format (format_value EXCEL) then exportToExcel data fields dataType
  else if String.eqb format (format_value PDF) then exportToPdf data fields dataType title
  else if String.eqb format (format_value JSON) then exportToJson data dataType
  else throw (ApiError ("Unsupported export format: " +:+ format) 400).

End Renderers.

(** ** Assemblers *)

Section Assemblers.
Context `{Host}.

(** [filters.key] on the filter object. *)
Definition filter_get (filters : gmap string jsval) (key : string) : jsval :=
  default JUndefined (filters !! key).

(** [a || b] on strings that may be null. *)
Definition or_string (a : option string) (b : string) : string :=
  match a with
  | Some s => if truthy (JStr s) then s else b
  | None => b
  end.

(** [Number(d || 0)] for a nullable Decimal (an object, hence truthy). *)
Definition Number_or_zero (d : option Q) : jsnum :=
  match d with
  | Some q => Num q
  | None => Number (num_of_Z 0)
  end.

(** The date-range guard shared by orders, customers and vendors
    (lines 314-319, 567-572, 881-886). *)
Definition createdAtRange (filters : gmap string jsval) : option (Range jsdate) :=
  if (truthy (filter_get filters "startDate") && truthy (filter_get filters "endDate"))%bool
  then Some (mkRange (Some (newDate (filter_get filters "startDate")))
                     (Some (newDate (filter_get filters "endDate"))) None)
  else None.

Definition if_truthy (v : jsval) : option jsval :=
  if truthy v then Some v else None.

(** [filters.key !== undefined ? Some (filters.key === "true") : None] *)
Definition flag_filter (v : jsval) : option bool :=
  if negb (is_undefined v) then Some (strict_eq_str v "true") else None.

(** *** Orders (lines 302-414) *)

Definition ordersWhere (filters : gmap string jsval) : OrderWhere :=
  mkOrderWhere (createdAtRange filters)
               (if_truthy (filter_get filters "status"))
               (if_truthy (filter_get filters "paymentStatus")).

Definition formatAddress (a : Address) : string :=
  street a +:+ ", " +:+ city a +:+ ", " +:+ state a +:+ " " +:+ postalCode a
  +:+ ", " +:+ country a.

Definition formatItem (item : OrderItem) : string :=
  or_string (option_map ip_name (oi_product item)) "Unknown"
  +:+ " (" +:+ toString (num_of_Z (oi_quantity item)) +:+ ")".

Definition formatOrder (order : Order) : jsval :=
  JObj [
    ("id", JStr (o_id order));
    ("orderNumber",
       JStr (or_string (o_orderNumber order) (toUpperCase (last_chars 8 (o_id order)))));
    ("customerName",
       JStr (match o_user order with
             | Some u => ou_firstName u +:+ " " +:+ ou_lastName u
             | None => "N/A"
             end));
    ("customerEmail",
       JStr (match o_user order with Some u => ou_email u | None => "N/A" end));
    ("status", JStr (o_status order));
    ("paymentStatus", JStr (o_paymentStatus order));
    ("totalAmount", JNum (Num (o_totalAmount order)));
    ("subtotalAmount", JNum (Num (o_subtotalAmount order)));
    ("taxAmount", JNum (Num (o_taxAmount order)));
    ("shippingAmount", JNum (Num (o_shippingAmount order)));
    ("discountAmount", JNum (Number_or_zero (o_discountAmount order)));
    ("shippingAddress",
       JStr (match o_shippingAddress order with
             | Some a => formatAddress a
             | None => "N/A"
             end));
    ("paymentMethod", o_paymentMethod order);
    ("createdAt", JStr (Date_toLocaleString (o_createdAt order)));
    ("itemCount", num_of_Z (Z.of_nat (length (o_items order))));
    ("items", JStr (join "; " (map formatItem (o_items order))))
  ].

Definition ordersFields : list string :=
  ["id"; "orderNumber"; "customerName"; "customerEmail"; "status";
   "paymentStatus"; "totalAmount"; "subtotalAmount"; "taxAmount";
   "shippingAmount"; "discountAmount"; "shippingAddress"; "paymentMethod";
   "createdAt"; "itemCount"; "items"].

Definition rethrow {A} (error : JsError) : M A := throw error.

Definition exportOrders (format : string) (filters : gmap string jsval) : M string :=
  tryCatch
    (let where_ := ordersWhere filters in
     let! orders := query (fun d => order_findMany d where_ ("createdAt", "desc")) in
     let formattedOrders := map formatOrder orders in
     renderAs format formattedOrders ordersFields ORDERS "Orders Report")
    rethrow.

(** *** Products (lines 423-546) *)

(** The price range (lines 443-452). *)
Definition priceRange (filters : gmap string jsval) : option (Range jsnum) :=
  let minPrice := filter_get filters "minPrice" in
  let maxPrice := filter_get filters "maxPrice" in
  if (truthy minPrice && truthy maxPrice)%bool
  then Some (mkRange (Some (Number minPrice)) (Some (Number maxPrice)) None)
  else if truthy minPrice then Some (mkRange (Some (Number minPrice)) None None)
  else if truthy maxPrice then Some (mkRange None (Some (Number maxPrice)) None)
  else None.

(** [filters.inStock === "true" ? { gt: 0 } : { lte: 0 }] *)
Definition inStockRange (inStock : jsval) : Range jsnum :=
  if strict_eq_str inStock "true" then mkRange None None (Some (Num 0))
  else mkRange None (Some (Num 0)) None.

Definition productsWhere (filters : gmap string jsval) : ProductWhere :=
  mkProductWhere
    (if_truthy (filter_get filters "categoryId"))
    (if_truthy (filter_get filters "vendorId"))
    (priceRange filters)
    (if negb (is_undefined (filter_get filters "inStock"))
     then Some (inStockRange (filter_get filters "inStock")) else None)
    (flag_filter (filter_get filters "featured"))
    (flag_filter (filter_get filters "active")).

Definition yesNo (b : bool) : jsval := JStr (if b then "Yes" else "No").

Definition or_NA (s : option string) : jsval :=
  JStr (match s with Some x => x | None => "N/A" end).

(** [reviews.reduce((sum, review) => sum + review.rating, 0)] *)
Definition sumQ (l : list Q) : Q := fold_left Qplus l 0%Q.

Definition averageRating (reviews : list Q) : string :=
  if (0 <? Z.of_nat (length reviews))
  then toFixed2 (Num (sumQ reviews / inject_Z (Z.of_nat (length reviews))))
  else "0.00".

Definition formatProduct (product : Product) : jsval :=
  JObj [
    ("id", JStr (p_id product));
    ("name", JStr (p_name product));
    ("sku", JStr (p_sku product));
    ("category", or_NA (p_category product));
    ("vendor", or_NA (p_vendor product));
    ("price", JNum (Num (p_price product)));
    ("compareAtPrice", JNum (Number_or_zero (p_compareAtPrice product)));
    ("quantity", num_of_Z (p_quantity product));
    ("inStock", yesNo (0 <? p_quantity product));
    ("featured", yesNo (p_isFeatured product));
    ("active", yesNo (p_isActive product));
    ("averageRating", JStr (averageRating (p_reviews product)));
    ("reviewCount", num_of_Z (Z.of_nat (length (p_reviews product))));
    ("createdAt", JStr (Date_toLocaleString (p_createdAt product)));
    ("updatedAt", JStr (Date_toLocaleString (p_updatedAt product)))
  ].

Definition productsFields : list string :=
  ["id"; "name"; "sku"; "category"; "vendor"; "price"; "compareAtPrice";
   "quantity"; "inStock"; "featured"; "active"; "averageRating";
   "reviewCount"; "createdAt"; "updatedAt"].

Definition exportProducts (format : string) (filters : gmap string jsval) : M string :=
  tryCatch
    (let where_ := productsWhere filters in
     let! products := query (fun d => product_findMany d where_ ("name", "asc")) in
     let formattedProducts := map formatProduct products in
     renderAs format formattedProducts productsFields PRODUCTS "Products Report")
    rethrow.

(** *** Customers (lines 555-657) *)

Definition customersWhere (filters : gmap string jsval) : UserWhere :=
  mkUserWhere "CUSTOMER" (createdAtRange filters)
              (flag_filter (filter_get filters "isActive")).

Definition isCompleted (order : CustomerOrder) : bool :=
  (String.eqb (co_status order) "DELIVERED" || String.eqb (co_status order) "SHIPPED")%bool.

Definition formatCustomer (customer : Customer) : jsval :=
  let completedOrders := List.filter isCompleted (c_orders customer) in
  let totalSpent := sumQ (map co_totalAmount completedOrders) in
  let orderCount := Z.of_nat (length completedOrders) in
  let averageOrderValue :=
    if 0 <? orderCount then (totalSpent / inject_Z orderCount)%Q else 0%Q in
  JObj [
    ("id", JStr (c_id customer));
    ("email", JStr (c_email customer));
    ("firstName", JStr (c_firstName customer));
    ("lastName", JStr (c_lastName customer));
    ("fullName", JStr (c_firstName customer +:+ " " +:+ c_lastName customer));
    ("phone", JStr (or_string (c_phone customer) "N/A"));
    ("country", JStr (or_string (c_country customer) "N/A"));
    ("isActive", yesNo (c_isActive customer));
    ("orderCount", num_of_Z orderCount);
    ("totalSpent", JStr (toFixed2 (Num totalSpent)));
    ("averageOrderValue", JStr (toFixed2 (Num averageOrderValue)));
    ("loyaltyPoints",
       match c_loyaltyPoints customer with
       | Some n => if truthy (num_of_Z n) then num_of_Z n else num_of_Z 0
       | None => num_of_Z 0
       end);
    ("createdAt", JStr (Date_toLocaleString (c_createdAt customer)));
    ("lastLoginAt",
       JStr (match c_lastLoginAt customer with
             | Some t => Date_toLocaleString t
             | None => "Never"
             end));
    ("addressCount", num_of_Z (Z.of_nat (length (c_addresses customer))))
  ].

Definition customersFields : list string :=
  ["id"; "email"; "fullName"; "firstName"; "lastName"; "phone"; "country";
   "isActive"; "orderCount"; "totalSpent"; "averageOrderValue";
   "loyaltyPoints"; "createdAt"; "lastLoginAt"; "addressCount"].

Definition exportCustomers (format : string) (filters : gmap string jsval) : M string :=
  tryCatch
    (let where_ := customersWhere filters in
     let! customers := query (fun d => user_findMany d where_ ("lastName", "asc")) in
     let formattedCustomers := map formatCustomer customers in
     renderAs format formattedCustomers customersFields CUSTOMERS "Customers Report")
    rethrow.

(** *** Sales (lines 666-742) *)

Definition thirtyDays : Z := 30 * 24 * 60 * 60 * 1000.

(** [filters.endDate ? new Date(filters.endDate) : new Date()] *)
Definition salesEndDate (filters : gmap string jsval) : M jsdate :=
  if truthy (filter_get filters "endDate")
  then ret (newDate (filter_get filters "endDate"))
  else let! t := Date_now in ret (Some t).

(** [filters.startDate ? new Date(filters.startDate)
                       : new Date(endDate.getTime() - thirtyDays)];
    thirty days before the end date is taken to be a time value again. *)
Definition salesStartDate (filters : gmap string jsval) (endDate : jsdate) : jsdate :=
  if truthy (filter_get filters "startDate")
  then newDate (filter_get filters "startDate")
  else option_map (fun e => e - thirtyDays) endDate.

(** [filters.interval || "daily"] *)
Definition salesInterval (filters : gmap string jsval) : jsval :=
  if truthy (filter_get filters "interval") then filter_get filters "interval"
  else JStr "daily".

Definition salesDateFormat (interval : jsval) : SqlDateExpr :=
  if strict_eq_str interval "hourly" then SqlDateTrunc "hour"
  else if strict_eq_str interval "weekly" then SqlDateTrunc "week"
  else if strict_eq_str interval "monthly" then SqlDateTrunc "month"
  else SqlDate.

(** [Number(x)] on a result column: NULL arrives as [null]. *)
Definition Number_sql (x : option Q) : jsnum :=
  match x with
  | Some q => Num q
  | None => Number JNull
  end.

(** [n || 0] on numbers. *)
Definition or_zero (n : jsnum) : jsval :=
  if truthy (JNum n) then JNum n else num_of_Z 0.

Definition formatSale (item : SalesRow) : jsval :=
  JObj [
    ("date", JStr (Date_toLocaleDateString (sr_date item)));
    ("sales", JStr (toFixed2 (Number_sql (sr_sales item))));
    ("orders", JNum (Number_sql (sr_orders item)));
    ("avgOrderValue", JStr (toFixed2 (Number_sql (sr_avgordervalue item))));
    ("itemsSold", or_zero (Number_sql (sr_itemssold item)))
  ].

Definition salesFields : list string :=
  ["date"; "sales"; "orders"; "avgOrderValue"; "itemsSold"].

(** Lines 676-711: the query the assembler sends. *)
Definition salesQuery (filters : gmap string jsval) : M SalesQuery :=
  let! endDate := salesEndDate filters in
  let startDate := salesStartDate filters endDate in
  let interval := salesInterval filters in
  ret (mkSalesQuery (salesDateFormat interval) startDate endDate).

Definition exportSales (format : string) (filters : gmap string jsval) : M string :=
  tryCatch
    (let! q := salesQuery filters in
     let! salesData := query (fun d => queryRaw_sales d q) in
     let formattedSales := map formatSale salesData in
     renderAs format formattedSales salesFields SALES "Sales Report")
    rethrow.

(** *** Inventory (lines 751-856) *)

(** The quantity condition (lines 771-781): three assignments in turn. *)
Definition quantityRange (filters : gmap string jsval) : option (Range jsnum) :=
  let minQuantity := filter_get filters "minQuantity" in
  let maxQuantity := filter_get filters "maxQuantity" in
  let inStock := filter_get filters "inStock" in
  let q1 := if negb (is_undefined minQuantity)
            then Some (mkRange (Some (Number minQuantity)) None None) else None in
  let q2 := if negb (is_undefined maxQuantity)
            then Some (match q1 with
                       | Some r => mkRange (gte r) (Some (Number maxQuantity)) (gt r)
                       | None => mkRange None (Some (Number maxQuantity)) None
                       end)
            else q1 in
  if negb (is_undefined inStock) then Some (inStockRange inStock) else q2.

Definition inventoryWhere (filters : gmap string jsval) : ProductWhere :=
  mkProductWhere
    (if_truthy (filter_get filters "categoryId"))
    (if_truthy (filter_get filters "vendorId"))
    None
    (quantityRange filters)
    None None.

Definition stockStatus (quantity : Z) : string :=
  if quantity <=? 0 then "Out of Stock"
  else if quantity <=? 5 then "Low Stock"
  else if quantity <=? 20 then "Medium Stock"
  else "Good Stock".

Definition formatInventory (product : Product) : jsval :=
  JObj [
    ("id", JStr (p_id product));
    ("sku", JStr (p_sku product));
    ("name", JStr (p_name product));
    ("category", or_NA (p_category product));
    ("vendor", or_NA (p_vendor product));
    ("quantity", num_of_Z (p_quantity product));
    ("price", JNum (Num (p_price product)));
    ("totalValue",
       JStr (toFixed2 (Num (inject_Z (p_quantity product) * p_price product))));
    ("status", JStr (stockStatus (p_quantity product)));
    ("lastUpdated", JStr (Date_toLocaleString (p_updatedAt product)))
  ].

Definition inventoryFields : list string :=
  ["id"; "sku"; "name"; "category"; "vendor"; "quantity"; "price";
   "totalValue"; "status"; "lastUpdated"].

Definition exportInventory (format : string) (filters : gmap string jsval) : M string :=
  tryCatch
    (let where_ := inventoryWhere filters in
     let! products := query (fun d => product_findMany d where_ ("quantity", "asc")) in
     let formattedInventory := map formatInventory products in
     renderAs format formattedInventory inventoryFields INVENTORY "Inventory Report")
    rethrow.

(** *** Vendors (lines 865-952) *)

Definition vendorsWhere (filters : gmap string jsval) : VendorWhere :=
  mkVendorWhere (if_truthy (filter_get filters "status")) (createdAtRange filters).

Definition formatVendor (vendor : Vendor) : jsval :=
  let totalProducts := Z.of_nat (length (v_products vendor)) in
  let totalValue := sumQ (map vp_price (v_products vendor)) in
  JObj [
    ("id", JStr (v_id vendor));
    ("businessName", JStr (v_businessName vendor));
    ("contactEmail", JStr (v_contactEmail vendor));
    ("contactPhone", JStr (or_string (v_contactPhone vendor) "N/A"));
    ("status", JStr (v_status vendor));
    ("commissionRate", JNum (Num (v_commissionRate vendor)));
    ("totalProducts", num_of_Z totalProducts);
    ("totalValue", JStr (toFixed2 (Num totalValue)));
    ("createdAt", JStr (Date_toLocaleString (v_createdAt vendor)));
    ("updatedAt", JStr (Date_toLocaleString (v_updatedAt vendor)))
  ].

Definition vendorsFields : list string :=
  ["id"; "businessName"; "contactEmail"; "contactPhone"; "status";
   "commissionRate"; "totalProducts"; "totalValue"; "createdAt"; "updatedAt"].

Definition exportVendors (format : string) (filters : gmap string jsval) : M string :=
  tryCatch
    (let where_ := vendorsWhere filters in
     let! vendors := query (fun d => vendor_findMany d where_ ("businessName", "asc")) in
     let formattedVendors := map formatVendor vendors in
     renderAs format formattedVendors vendorsFields VENDORS "Vendors Report")
    rethrow.

(** The six exported entry points, indexed by report kind. *)
Inductive ReportKind : Type :=
| Orders | Products | Customers | Sales | Inventory | Vendors.

Definition exportKind (kind : ReportKind)
  : string -> gmap string jsval -> M string :=
  match kind with
  | Orders => exportOrders
  | Products => exportProducts
  | Customers => exportCustomers
  | Sales => exportSales
  | Inventory => exportInventory
  | Vendors => exportVendors
  end.

End Assemblers.

(** ** The sales query as SQL evaluates it (lines 694-711)

    [SELECT <dateFormat> AS date, SUM, COUNT, AVG, SUM(subselect)
     FROM "Order" WHERE "createdAt" >= start AND "createdAt" <= end
       AND "status" IN ('DELIVERED', 'SHIPPED')
     GROUP BY <dateFormat> ORDER BY date ASC] *)

Module Sql.

(** A row of "Order" with the quantities of its "OrderItem" rows. *)
Record OrderRow : Type := mkOrderRow {
  createdAt : Z;
  totalAmount : Q;
  status : string;
  itemQuantities : list Z;
}.

Section Query.
Context `{Host}.
(** What [DATE] and [DATE_TRUNC] make of a timestamp in the session's
    time zone. *)
Variable dateTrunc : SqlDateExpr -> Z -> Z.

Definition selected (startDate endDate : Z) (o : OrderRow) : bool :=
  ((startDate <=? createdAt o) && (createdAt o <=? endDate)
   && (String.eqb (status o) "DELIVERED" || String.eqb (status o) "SHIPPED"))%bool.

(** GROUP BY with ORDER BY ... ASC: groups are kept in ascending key
    order, a row joins the group of its key. *)
Fixpoint insertGroup (key : Z) (o : OrderRow) (groups : list (Z * list OrderRow))
  : list (Z * list OrderRow) :=
  match groups with
  | [] => [(key, [o])]
  | (k, os) :: rest =>
      if key <? k then (key, [o]) :: groups
      else if key =? k then (k, os ++ [o]) :: rest
      else (k, os) :: insertGroup key o rest
  end.

Definition groupBy (f : Z -> Z) (rows : list OrderRow) : list (Z * list OrderRow) :=
  fold_left (fun groups o => insertGroup (f (createdAt o)) o groups) rows [].

(** SUM over values that may be NULL: NULL when there is nothing to add. *)
Definition sumNullable (l : list (option Q)) : option Q :=
  fold_left (fun acc x =>
               match acc, x with
               | Some a, Some b => Some (a + b)%Q
               | None, y => y
               | a, None => a
               end) l None.

(** [(SELECT SUM("quantity") FROM "OrderItem" WHERE "orderId" = "Order"."id")] *)
Definition itemsOf (o : OrderRow) : option Q :=
  sumNullable (map (fun q => Some (inject_Z q)) (itemQuantities o)).

Definition aggregate (g : Z * list OrderRow) : SalesRow :=
  let sales := fold_left Qplus (map totalAmount (snd g)) 0%Q in
  let n := inject_Z (Z.of_nat (length (snd g))) in
  mkSalesRow (fst g) (Some sales) (Some n) (Some (sqlAvg sales n))
             (sumNullable (map itemsOf (snd g))).

(** An Invalid Date cannot be bound as a parameter. *)
Definition runSalesQuery (orders : list OrderRow) (q : SalesQuery) : Exn (list SalesRow) :=
  match sq_startDate q, sq_endDate q with
  | Some s, Some e =>
      Ok (map aggregate
              (groupBy (dateTrunc (sq_dateFormat q)) (List.filter (selected s e) orders)))
  | _, _ => Throw (DbError "Invalid time value")
  end.

End Query.
End Sql.

(** ** Vocabulary of the properties *)



Section Walk.
Context `{Host}.


(** The value the projection yields. *)
Definition projected (item : jsval) (field : string) : jsval :=
  match projectField item field with
  | Ok v => v
  | Throw _ => JNull
  end.

(** The rows of the workbook sheet: the capitalized field names, then one
    row of cells per item. *)
Definition sheetRows (data : list jsval) (fields : list string) : list (list jsval) :=
  map (fun f => JStr (capitalize f)) fields
  :: map (fun item => map (fun f => excelCell (projected item f)) fields) data.

(** The sheet the workbook renderer writes: those rows, one fitted width
    per field. *)
Definition fittedSheet (data : list jsval) (fields : list string)
    (dataType : ExportDataType) : Worksheet :=
  mkWorksheet (dataType_value dataType) (sheetRows data fields)
    (map (fun i => autoFitWidth (map (fun row => nth i row (JStr "")) (sheetRows data fields)))
         (seq 0 (length fields))).

End Walk.

(** What the workbook renderer reports for a sheet without columns. *)
Definition noColumnsError : JsError :=
  ApiError "Failed to export data to Excel: Cannot read properties of null (reading 'forEach')"
           500.


Definition isCell (op : nat * PdfOp) : bool :=
  match snd op with PCell _ _ _ _ _ _ _ => true | _ => false end.

(** Header and data cells of an artifact in writing order: for a PDF its
    table cells, without title and generation stamp; for the other
    formats the whole content. *)
Definition tableOf (c : FileContent) : FileContent :=
  match c with
  | PdfFile doc => PdfFile (List.filter isCell doc)
  | other => other
  end.

(** The four formats the final [switch] knows. *)
Definition recognized (format : string) : bool :=
  existsb (fun f => String.eqb format (format_value f)) [CSV; EXCEL; PDF; JSON].

(** A host used to evaluate examples: English-style fixed texts stand in
    for locale-dependent output, and the few prototype members and
    numbers the examples meet are answered as an engine answers them. *)
Definition exampleHost : Host := {|
  inherited := fun v key =>
    match v with
    | JObj _ =>
        if existsb (String.eqb key) ["constructor"; "toString"; "valueOf"; "hasOwnProperty"]
        then JNative ("Object.prototype." +:+ key) else JUndefined
    | JNum _ =>
        if existsb (String.eqb key) ["constructor"; "toString"; "valueOf"; "toFixed"]
        then JNative ("Number.prototype." +:+ key) else JUndefined
    | JStr _ =>
        if existsb (String.eqb key) ["constructor"; "toString"; "valueOf"; "toUpperCase"]
        then JNative ("String.prototype." +:+ key) else JUndefined
    | _ => JUndefined
    end;
  Native_toString := fun id => "function " +:+ id +:+ "() { [native code] }";
  StringToNumber := fun s =>
    if String.eqb s "10" then Num 10 else if String.eqb s "5" then Num 5 else NaN;
  Date_parse := fun s =>
    if String.eqb s "2024-01-01" then Some 1704067200000
    else if String.eqb s "2024-01-31" then Some 1706659200000 else None;
  Number_toString_other := fun _ => "0.5";
  toFixed2_other := fun _ => "0.33";
  Date_toLocaleString := fun t => toISOString t;
  Date_toLocaleDateString := fun t => string_take 10 (toISOString t);
  JSON_stringify := fun l => "[" +:+ Z_to_string (Z.of_nat (length l)) +:+ " rows]";
  json2csv_line := fun fields item =>
    join "," (map (fun f => match ownProp item f with
                           | Some (JStr s) => s
                           | _ => ""
                           end) fields);
  sqlAvg := Qdiv;
|}.

Definition emptySource : DataSource := {|
  order_findMany := fun _ _ => Ok [];
  product_findMany := fun _ _ => Ok [];
  user_findMany := fun _ _ => Ok [];
  vendor_findMany := fun _ _ => Ok [];
  queryRaw_sales := fun _ => Ok [];
|}.

Definition exampleWorld (d : DataSource) (t : Z) : World :=
  mkWorld t "/srv/app" d 0 ∅ ∅ None.

(** Texts of the header band, and of the data cells, in drawing order. *)
Definition headerTexts (doc : PdfDoc) : list string :=
  flat_map (fun op => match snd op with
                      | PCell HeaderBand _ _ _ _ _ text => [text]
                      | _ => []
                      end) doc.

Definition dataTexts (doc : PdfDoc) : list string :=
  flat_map (fun op => match snd op with
                      | PCell (DataBand _) _ _ _ _ _ text => [text]
                      | _ => []
                      end) doc.

(** Pages started with [doc.addPage()]. *)
Definition pagesAdded (doc : PdfDoc) : nat :=
  length (List.filter (fun op => match snd op with PAddPage => true | _ => false end) doc).





(** The filename generated at clock reading [t]. *)
Definition filenameAt (dataType : ExportDataType) (format : ExportFormat) (t : Z) : string :=
  dataType_value dataType +:+ "-export-" +:+ replaceColonDot (toISOString t) +:+ "."
  +:+ format_value format.

Definition exportDirOf (w : World) : string := path_join (cwd w) "exports".

(** The path of the artifact an export started in world [w] writes. *)
Definition artifactPath (w : World) (dataType : ExportDataType) (format : ExportFormat)
  : string :=
  path_join (exportDirOf w) (filenameAt dataType format (now w)).

(** The world once the export directory exists. *)
Definition withExportDir (w : World) : World :=
  if decide (exportDirOf w ∈ dirs w) then w
  else set_dirs ({[exportDirOf w]} ∪ dirs w) w.

Definition writeError : JsError := IoError "ENOSPC: no space left on device, write".

(** *** A data source that evaluates the sales query in UTC *)

(** Day count since 1970-01-01 of a civil date. *)
Definition days_from_civil (y m d : Z) : Z :=
  let y' := if m <=? 2 then y - 1 else y in
  let era := y' / 400 in
  let yoe := y' - era * 400 in
  let doy := (153 * (if 2 <? m then m - 3 else m + 9) + 2) / 5 + d - 1 in
  let doe := yoe * 365 + yoe / 4 - yoe / 100 + doy in
  era * 146097 + doe - 719468.

Definition msPerDay : Z := 86400000.

(** [DATE] and [DATE_TRUNC('hour' | 'week' | 'month', _)] on a UTC
    timestamp in milliseconds; weeks start on Monday. *)
Definition utcTrunc (e : SqlDateExpr) (t : Z) : Z :=
  let day := t / msPerDay in
  match e with
  | SqlDate => day * msPerDay
  | SqlDateTrunc unit =>
      if String.eqb unit "hour" then t - t mod 3600000
      else if String.eqb unit "week" then (day - (day + 3) mod 7) * msPerDay
      else if String.eqb unit "month" then
        let '(y, m, _) := civil_from_days day in days_from_civil y m 1 * msPerDay
      else t
  end.

Definition sqlSource `{Host} (orders : list Sql.OrderRow) : DataSource := {|
  order_findMany := fun _ _ => Ok [];
  product_findMany := fun _ _ => Ok [];
  user_findMany := fun _ _ => Ok [];
  vendor_findMany := fun _ _ => Ok [];
  queryRaw_sales := Sql.runSalesQuery utcTrunc orders;
|}.

Section Answers.
Context `{Host}.

(** What the data source answers to the one query an export of [kind]
    sends from world [w], the rows themselves left out. *)
Definition sourceAnswer (kind : ReportKind) (filters : gmap string jsval) (w : World)
  : Exn unit :=
  let done {A} (r : Exn A) : Exn unit := exn_bind r (fun _ => Ok tt) in
  match kind with
  | Orders => done (order_findMany (db w) (ordersWhere filters) ("createdAt", "desc"))
  | Products => done (product_findMany (db w) (productsWhere filters) ("name", "asc"))
  | Customers => done (user_findMany (db w) (customersWhere filters) ("lastName", "asc"))
  | Sales => done (exn_bind (fst (salesQuery filters w)) (queryRaw_sales (db w)))
  | Inventory => done (product_findMany (db w) (inventoryWhere filters) ("quantity", "asc"))
  | Vendors => done (vendor_findMany (db w) (vendorsWhere filters) ("businessName", "asc"))
  end.

End Answers.

(** Delivered and shipped orders on three consecutive days of January
    2024, and one pending order. *)
Definition threeDays : list Sql.OrderRow :=
  [ Sql.mkOrderRow 1704240000000 30 "DELIVERED" [1];
    Sql.mkOrderRow 1704067200000 10 "DELIVERED" [2; 1];
    Sql.mkOrderRow 1704153600000 20 "SHIPPED" [];
    Sql.mkOrderRow 1704070800000 5 "SHIPPED" [4];
    Sql.mkOrderRow 1704160000000 99 "PENDING" [1] ].

(** ** Further vocabulary: what each entry point assembles and renders *)

Section Assembled.
Context `{Host}.

(** The data type, field list and PDF title each entry point passes to
    its renderer. *)
Definition kindType (kind : ReportKind) : ExportDataType :=
  match kind with
  | Orders => ORDERS
  | Products => PRODUCTS
  | Customers => CUSTOMERS
  | Sales => SALES
  | Inventory => INVENTORY
  | Vendors => VENDORS
  end.

Definition kindFields (kind : ReportKind) : list string :=
  match kind with
  | Orders => ordersFields
  | Products => productsFields
  | Customers => customersFields
  | Sales => salesFields
  | Inventory => inventoryFields
  | Vendors => vendorsFields
  end.

Definition kindTitle (kind : ReportKind) : string :=
  match kind with
  | Orders => "Orders Report"
  | Products => "Products Report"
  | Customers => "Customers Report"
  | Sales => "Sales Report"
  | Inventory => "Inventory Report"
  | Vendors => "Vendors Report"
  end.

(** The rows an export of [kind] hands to its renderer from world [w]:
    the data source's answer to its one query, formatted row by row. *)
Definition assembledRows (kind : ReportKind) (filters : gmap string jsval) (w : World)
  : Exn (list jsval) :=
  let rows {A} (r : Exn (list A)) (fmt : A -> jsval) : Exn (list jsval) :=
    exn_bind r (fun l => Ok (map fmt l)) in
  match kind with
  | Orders =>
      rows (order_findMany (db w) (ordersWhere filters) ("createdAt", "desc")) formatOrder
  | Products =>
      rows (product_findMany (db w) (productsWhere filters) ("name", "asc")) formatProduct
  | Customers =>
      rows (user_findMany (db w) (customersWhere filters) ("lastName", "asc")) formatCustomer
  | Sales =>
      rows (exn_bind (fst (salesQuery filters w)) (queryRaw_sales (db w))) formatSale
  | Inventory =>
      rows (product_findMany (db w) (inventoryWhere filters) ("quantity", "asc"))
           formatInventory
  | Vendors =>
      rows (vendor_findMany (db w) (vendorsWhere filters) ("businessName", "asc"))
           formatVendor
  end.

(** The format a [format] argument selects in the final [switch]. *)
Definition formatOf (format : string) : option ExportFormat :=
  if String.eqb format "csv" then Some CSV
  else if String.eqb format "excel" then Some EXCEL
  else if String.eqb format "pdf" then Some PDF
  else if String.eqb format "json" then Some JSON
  else None.

(** The word each renderer puts into its failure message. *)
Definition formatLabel (f : ExportFormat) : string :=
  match f with
  | CSV => "CSV"
  | EXCEL => "Excel"
  | PDF => "PDF"
  | JSON => "JSON"
  end.

(** A file cut short by a device fault after [k] bytes. *)
Definition cutShort (k : nat) (c : FileContent) : Prop :=
  c = Truncated k \/ exists text, c = TextFile (string_take k text).

End Assembled.

(** A data source that is unreachable: every query fails. *)
Definition failingSource (msg : string) : DataSource := {|
  order_findMany := fun _ _ => Throw (DbError msg);
  product_findMany := fun _ _ => Throw (DbError msg);
  user_findMany := fun _ _ => Throw (DbError msg);
  vendor_findMany := fun _ _ => Throw (DbError msg);
  queryRaw_sales := fun _ => Throw (DbError msg);
|}.

(** The own properties of a row object. *)
Definition propsOf (v : jsval) : list (string * jsval) :=
  match v with
  | JObj props => props
  | _ => []
  end.

Definition keysOf (v : jsval) : list string := map fst (propsOf v).

(** The fill colour and height the PDF renderer gives a cell of a band. *)
Definition bandFill (band : Band) : string :=
  match band with
  | HeaderBand => "#e0e0e0"
  | DataBand rowIndex => if Nat.even rowIndex then "#ffffff" else "#f9f9f9"
  end.

Definition bandHeight (band : Band) : Z :=
  match band with
  | HeaderBand => 30
  | DataBand _ => 25
  end.

(** A drawing call is no cell, or the cell of some column [c] of [n]
    equally wide columns of width [wd]. *)
Definition inColumn (n : nat) (wd : Z) (op : nat * PdfOp) : Prop :=
  match snd op with
  | PCell band x _ w h fill _ =>
      (exists c, (c < n)%nat /\ x = tableLeft + Z.of_nat c * wd) /\
      w = wd /\ h = bandHeight band /\ fill = bandFill band
  | _ => True
  end.



(** A customer row with other orders, everything else unchanged. *)
Definition withOrders (c : Customer) (orders : list CustomerOrder) : Customer :=
  mkCustomer (c_id c) (c_email c) (c_firstName c) (c_lastName c) (c_phone c)
             (c_country c) (c_isActive c) (c_loyaltyPoints c) (c_createdAt c)
             (c_lastLoginAt c) orders (c_addresses c).

(** A group of the sales query is not empty and holds orders of its own
    key only. *)
Definition keyed (f : Z -> Z) (g : Z * list Sql.OrderRow) : Prop :=
  snd g <> [] /\ List.Forall (fun o => f (Sql.createdAt o) = fst g) (snd g).

(** Sample rows for evaluating the properties. *)
Definition sampleProduct : Product :=
  mkProduct "p1" "Phone case" "CASE-1" (Some "Cases") None 12 None 3 true true [4%Q; 5%Q]
            1704067200000 1704153600000.

Definition sampleCustomer : Customer :=
  mkCustomer "c1" "ann@example.com" "Ann" "Lee" None (Some "NZ") true None
             1704067200000 None
             [mkCustomerOrder 40 "PENDING"; mkCustomerOrder 15 "CANCELLED"] [].

Definition sampleOrder : Order :=
  mkOrder "ckv9x2ab7" None None "PENDING" "PAID" 25 20 3 2 None None JNull
          1704067200000 [mkOrderItem None 2].

Definition sampleSource : DataSource := {|
  order_findMany := fun _ _ => Ok [sampleOrder];
  product_findMany := fun _ _ => Ok [sampleProduct];
  user_findMany := fun _ _ => Ok [sampleCustomer];
  vendor_findMany := fun _ _ => Ok [];
  queryRaw_sales := fun _ => Ok [];
|}.

(** ** The error handler middleware (server/src/middleware/errorHandler.ts)

    It turns whatever a route throws, the export service's ApiError
    included, into the HTTP response. *)

Module Handler.

Record JoiDetail : Type := mkJoiDetail {
  jd_message : string;
  jd_path : jsval;
  jd_type : string;
}.

(** Which of the classes tested with [instanceof] the error belongs to,
    with the members the handler reads from it. *)
Inductive ErrorClass : Type :=
| IsApiError (statusCode : Z)
| IsMongooseValidation (errors : list (string * string))
| IsMongooseCast (path : string) (value : jsval)
| IsJoiValidation (details : list JoiDetail)
| IsOther.

(** The thrown value: [keyValue] is [None] when the property is
    undefined or null, else its own properties as [Object.keys] lists
    them. *)
Record Thrown : Type := mkThrown {
  t_class : ErrorClass;
  t_name : string;
  t_message : string;
  t_stack : jsval;
  t_code : jsval;
  t_type : jsval;
  t_keyValue : option (list (string * jsval));
}.

Record Request : Type := mkRequest {
  req_id : jsval;
  req_language : option string;
}.

Inductive Details : Type :=
| NoDetails
| FieldMessages (messages : list (string * string))
| JoiDetails (details : list JoiDetail).

Record ErrorInfo : Type := mkErrorInfo {
  ei_name : string;
  ei_details : Details;
  ei_stack : jsval;
}.

(** [res.status(statusCode).json({ status, message, error, requestId })] *)
Record Response : Type := mkResponse {
  r_statusCode : Z;
  r_status : string;
  r_message : string;
  r_error : option ErrorInfo;
  r_requestId : jsval;
}.

Section WithEnvironment.
Context `{Host}.
(** [translateError(key, {}, language)] and [process.env.NODE_ENV]. *)
Variable translateError : string -> string -> string.
Variable NODE_ENV : jsval.

(** [v === 11000] *)
Definition is_11000 (v : jsval) : bool :=
  match v with
  | JNum (Num q) => Qeq_bool q 11000
  | _ => false
  end.

(** The status, message and details the chain of tests settles on. *)
Definition classify (err : Thrown) (language : string)
  : Exn (Z * string * Details) :=
  match t_class err with
  | IsApiError statusCode => Ok (statusCode, t_message err, NoDetails)
  | IsMongooseValidation errors =>
      Ok (400, translateError "validation" language, FieldMessages errors)
  | IsMongooseCast path value =>
      Ok (400, "Invalid " +:+ path +:+ ": " +:+ toString value, NoDetails)
  | IsJoiValidation details =>
      Ok (400, translateError "validation" language, JoiDetails details)
  | IsOther =>
      if (String.eqb (t_name err) "MongoServerError" && is_11000 (t_code err))%bool then
        match t_keyValue err with
        | None => Throw (TypeError "Cannot convert undefined or null to object")
        | Some [] =>
            Ok (400, "Duplicate value for undefined: undefined", NoDetails)
        | Some ((duplicateKey, value) :: _) =>
            Ok (400, "Duplicate value for " +:+ duplicateKey +:+ ": " +:+ toString value,
                NoDetails)
        end
      else if String.eqb (t_name err) "JsonWebTokenError" then
        Ok (401, translateError "auth.invalidToken" language, NoDetails)
      else if String.eqb (t_name err) "TokenExpiredError" then
        Ok (401, translateError "auth.tokenExpired" language, NoDetails)
      else if String.eqb (t_name err) "PayloadTooLargeError" then
        Ok (413, translateError "payloadTooLarge" language, NoDetails)
      else if (String.eqb (t_name err) "SyntaxError"
               && strict_eq_str (t_type err) "entity.parse.failed")%bool then
        Ok (400, translateError "invalidJson" language, NoDetails)
      else Ok (500, translateError "server" language, NoDetails)
  end.

Definition errorHandler (err : Thrown) (req : Request) : Exn Response :=
  let language := or_string (req_language req) "en" in
  exn_bind (classify err language) (fun '(statusCode, message, errorDetails) =>
    Ok (mkResponse statusCode "error" message
          (if strict_eq_str NODE_ENV "development"
           then Some (mkErrorInfo (t_name err) errorDetails (t_stack err))
           else None)
          (req_id req))).

End WithEnvironment.
End Handler.

(** An error of the export service as the handler meets it: an ApiError
    with its status, anything else as a plain error; [name] and [stack]
    are the thrown object's own. *)
Definition asThrown (e : JsError) (name : string) (stack : jsval) : Handler.Thrown :=
  match e with
  | ApiError msg statusCode =>
      Handler.mkThrown (Handler.IsApiError statusCode) name msg stack
                       JUndefined JUndefined None
  | _ => Handler.mkThrown Handler.IsOther name (message e) stack JUndefined JUndefined None
  end.

(** The error names the handler treats specially. *)
Definition specialNames : list string :=
  ["MongoServerError"; "JsonWebTokenError"; "TokenExpiredError";
   "PayloadTooLargeError"; "SyntaxError"].

(** A stand-in for the translation table: the key and the language. *)
Definition exampleTranslate (key language : string) : string :=
  key +:+ "@" +:+ language.

(** * Properties *)

(** ** Sanity checks of the JavaScript model *)

Example iso_epoch : toISOString 0 = "1970-01-01T00:00:00.000Z".
Proof. reflexivity. Qed.
Example iso_2023 : toISOString 1700000000123 = "2023-11-14T22:13:20.123Z".
Proof. reflexivity. Qed.
Example iso_leap : toISOString 951782400000 = "2000-02-29T00:00:00.000Z".
Proof. reflexivity. Qed.
Example iso_before : toISOString (-1) = "1969-12-31T23:59:59.999Z".
Proof. reflexivity. Qed.

Example toFixed2_half : toFixed2 (H := exampleHost) (Num (1 # 8)) = "0.13".
Proof. reflexivity. Qed.
Example toFixed2_negative : toFixed2 (H := exampleHost) (Num (- (5 # 2))) = "-2.50".
Proof. reflexivity. Qed.

Example newDate_last : newDate (H := exampleHost) (num_of_Z 8640000000000000)
                       = Some 8640000000000000.
Proof. reflexivity. Qed.
Example newDate_beyond : newDate (H := exampleHost) (num_of_Z 8640000000000001) = None.
Proof. reflexivity. Qed.
Example newDate_fraction : newDate (H := exampleHost) (JNum (Num (- (3 # 2)))) = Some (-1).
Proof. reflexivity. Qed.

Example path_join_root : path_join "/" "exports" = "/exports".
Proof. reflexivity. Qed.
Example path_join_dir : path_join "/srv/app" "exports" = "/srv/app/exports".
Proof. reflexivity. Qed.

(** ** Field projection *)

Section FieldProjection.
Context `{Host}.

Example project_nested :
  projectField (JObj [("a", JObj [("b", num_of_Z 1)])]) "a.b" = Ok (num_of_Z 1).
Proof. reflexivity. Qed.

Lemma getProp_truthy (obj : jsval) (key : string) :
  truthy obj = true ->
  getProp obj key = Ok (match ownProp obj key with
                        | Some v => v
                        | None => inherited obj key
                        end).
Proof. destruct obj; simpl; intros Ht; try discriminate; reflexivity. Qed.

(** One step from a truthy value: the own property if there is one, else
    the inherited member, an undefined one replaced by null. *)
Lemma projectStep_truthy (obj : jsval) (key : string) :
  truthy obj = true ->
  projectStep obj key =
  Ok (match ownProp obj key with
      | Some v => if is_undefined v then JNull else v
      | None => if is_undefined (inherited obj key) then JNull else inherited obj key
      end).
Proof.
  intros Ht. unfold projectStep. rewrite Ht, (getProp_truthy obj key Ht). simpl.
  destruct (ownProp obj key) as [v|]; [destruct (is_undefined v)|
                                       destruct (is_undefined (inherited obj key))];
    reflexivity.
Qed.

Lemma projectStep_falsy (obj : jsval) (key : string) :
  truthy obj = false -> projectStep obj key = Ok JNull.
Proof. intros Ht. unfold projectStep. rewrite Ht. reflexivity. Qed.

Lemma projectStep_total (obj : jsval) (key : string) :
  exists v, projectStep obj key = Ok v.
Proof.
  destruct (truthy obj) eqn:Ht.
  - rewrite (projectStep_truthy obj key Ht). eauto.
  - rewrite (projectStep_falsy obj key Ht). eauto.
Qed.

Lemma reduce_projectStep_total (keys : list string) :
  forall item, exists v, reduce projectStep keys item = Ok v.
Proof.
  induction keys as [|k keys IH]; intros item; simpl; [eauto|].
  destruct (projectStep_total item k) as [v Hv]. rewrite Hv. simpl. apply IH.
Qed.


Lemma projectStep_own (props : list (string * jsval)) (key : string) (v : jsval) :
  assoc key props = Some v ->
  projectStep (JObj props) key = Ok (if is_undefined v then JNull else v).
Proof.
  intros Hk. rewrite projectStep_truthy by reflexivity. simpl. rewrite Hk. reflexivity.
Qed.





Lemma projected_spec (item : jsval) (field : string) :
  projectField item field = Ok (projected item field).
Proof.
  unfold projected.
  destruct (reduce_projectStep_total (split "." field) item) as [v Hv].
  unfold projectField. rewrite Hv. reflexivity.
Qed.

End FieldProjection.



(** ** Headers and cells of the renderers *)

Section RendererFacts.
Context `{Host}.

Lemma excelRow_spec (fields : list string) (item : jsval) :
  excelRow fields item = Ok (map (fun f => excelCell (projected item f)) fields).
Proof.
  unfold excelRow. induction fields as [|f fields IH]; simpl; [reflexivity|].
  rewrite projected_spec. simpl. rewrite IH. reflexivity.
Qed.

Lemma excelRows_spec (fields : list string) (data : list jsval) :
  exn_map (excelRow fields) data =
  Ok (map (fun item => map (fun f => excelCell (projected item f)) fields) data).
Proof.
  induction data as [|item data IH]; simpl; [reflexivity|].
  rewrite excelRow_spec. simpl. rewrite IH. reflexivity.
Qed.

Lemma excelSheet_spec (data : list jsval) (fields : list string) (dataType : ExportDataType) :
  excelSheet data fields dataType =
  Ok (mkWorksheet (dataType_value dataType) (sheetRows data fields) []).
Proof. unfold excelSheet. rewrite excelRows_spec. reflexivity. Qed.

Lemma sheetRows_lengths (data : list jsval) (fields : list string) :
  Forall (fun r => length r = length fields) (sheetRows data fields).
Proof.
  unfold sheetRows. constructor; [apply length_map|].
  apply List.Forall_forall. intros r Hr. apply in_map_iff in Hr.
  destruct Hr as (row & <- & _). apply length_map.
Qed.

Lemma columnCount_rows (name : string) (rows : list (list jsval)) (widths : list Z) (n : nat) :
  rows <> [] -> Forall (fun r => length r = n) rows ->
  columnCount (mkWorksheet name rows widths) = n.
Proof.
  unfold columnCount. simpl. intros Hne Hall.
  induction Hall as [|r rest Hr Hrest IH]; [congruence|]. simpl.
  destruct rest as [|r' rest']; [simpl; lia|].
  rewrite IH by discriminate. lia.
Qed.

(** The auto-fit loop on the sheet of an export: with at least one field
    every column gets its width; without fields it throws. *)
Lemma autoFit_spec (data : list jsval) (fields : list string) (dataType : ExportDataType) :
  autoFit (mkWorksheet (dataType_value dataType) (sheetRows data fields) []) =
  match fields with
  | [] => Throw (TypeError "Cannot read properties of null (reading 'forEach')")
  | _ :: _ => Ok (fittedSheet data fields dataType)
  end.
Proof.
  unfold autoFit.
  rewrite (columnCount_rows _ _ _ (length fields));
    [|unfold sheetRows; discriminate|apply sheetRows_lengths].
  destruct fields as [|f fields]; reflexivity.
Qed.

Lemma pdfHeader_texts (fields : list string) :
  forall i widths left,
    headerTexts (pdfHeader fields i widths left) = map capitalize fields /\
    dataTexts (pdfHeader fields i widths left) = [] /\
    pagesAdded (pdfHeader fields i widths left) = 0%nat.
Proof.
  induction fields as [|f fields IH]; intros i widths left; simpl; [auto|].
  destruct (IH (S i) widths (left + nth i widths 0)) as (Hh & Hd & Hp).
  unfold headerTexts, dataTexts, pagesAdded in *. simpl.
  rewrite Hh, Hd. auto.
Qed.

Lemma pdfRow_spec (item : jsval) (rowIndex page : nat) (top : Z) (widths : list Z)
    (fields : list string) :
  forall colIndex left, exists cells,
    pdfRow item rowIndex page top fields colIndex widths left = Ok cells /\
    headerTexts cells = [] /\
    dataTexts cells = map (fun f => displayValue (projected item f)) fields /\
    pagesAdded cells = 0%nat /\
    Forall (fun op => exists x w fill text,
              op = (page, PCell (DataBand rowIndex) x top w 25 fill text)) cells.
Proof.
  induction fields as [|f fields IH]; intros colIndex left; simpl.
  - exists []. repeat split; constructor.
  - rewrite projected_spec. simpl.
    destruct (IH (S colIndex) (left + nth colIndex widths 0)) as (cells & -> & Hh & Hd & Hp & Hc).
    simpl. eexists. split; [reflexivity|].
    unfold headerTexts, dataTexts, pagesAdded in *. simpl. rewrite Hh, Hd.
    repeat split; auto. constructor; eauto 6.
Qed.

End RendererFacts.

(** ** Page layout of the paginated document *)

Section PdfLayout.
Context `{Host}.
Variable pageHeight : Z.
Variable fields : list string.
Variable widths : list Z.

Lemma pdfRows_cons (item : jsval) (rest : list jsval) (i p : nat) (t : Z) :
  pdfRows pageHeight fields widths (item :: rest) i p t =
  exn_bind (pdfRow item i p t fields 0 widths tableLeft) (fun cells =>
    let brk := t + 25 >? pageHeight - 100 in
    exn_bind (pdfRows pageHeight fields widths rest (S i)
                (if brk then S p else p) (if brk then 50 else t + 25))
      (fun '(ops, pageEnd, topEnd) =>
         Ok (cells ++ (if brk then [(S p, PAddPage)] else []) ++ ops, pageEnd, topEnd))).
Proof. simpl. destruct (t + 25 >? pageHeight - 100); reflexivity. Qed.

Lemma headerTexts_app (a b : PdfDoc) : headerTexts (a ++ b) = headerTexts a ++ headerTexts b.
Proof. apply flat_map_app. Qed.

Lemma dataTexts_app (a b : PdfDoc) : dataTexts (a ++ b) = dataTexts a ++ dataTexts b.
Proof. apply flat_map_app. Qed.

Lemma pagesAdded_app (a b : PdfDoc) : pagesAdded (a ++ b) = (pagesAdded a + pagesAdded b)%nat.
Proof. unfold pagesAdded. rewrite List.filter_app, length_app. reflexivity. Qed.

(** The row loop always completes; it draws every row's cells in order,
    no header cell, and ends on the page it started on plus the pages it
    added. *)
Lemma pdfRows_texts (data : list jsval) :
  forall i p t, exists ops pageEnd topEnd,
    pdfRows pageHeight fields widths data i p t = Ok (ops, pageEnd, topEnd) /\
    headerTexts ops = [] /\
    dataTexts ops =
      flat_map (fun item => map (fun f => displayValue (projected item f)) fields) data /\
    pageEnd = (p + pagesAdded ops)%nat /\
    Forall (fun op => (p <= fst op <= pageEnd)%nat) ops.
Proof.
  induction data as [|item rest IH]; intros i p t.
  - exists [], p, t. simpl. repeat split; auto.
  - rewrite pdfRows_cons.
    destruct (pdfRow_spec item i p t widths fields 0%nat tableLeft)
      as (cells & -> & Hh & Hd & Hp & Hc).
    cbn [exn_bind]. cbv zeta.
    set (brk := t + 25 >? pageHeight - 100).
    destruct (IH (S i) (if brk then S p else p) (if brk then 50 else t + 25))
      as (ops & pE & tE & -> & Hh' & Hd' & HpE & Hf).
    cbn [exn_bind]. eexists _, pE, tE. split; [reflexivity|].
    assert (Hle : (p <= pE)%nat) by (destruct brk; lia).
    rewrite !headerTexts_app, !dataTexts_app, !pagesAdded_app, Hh, Hh', Hd, Hd', Hp.
    repeat split.
    + destruct brk; reflexivity.
    + destruct brk; reflexivity.
    + destruct brk; cbn; lia.
    + rewrite !Forall_app. repeat split.
      * eapply List.Forall_impl; [|exact Hc]. intros op (x & w & f & tx & ->). simpl. lia.
      * destruct brk; constructor; [simpl; lia|constructor].
      * eapply List.Forall_impl; [|exact Hf]. intros op Hop. simpl in Hop. destruct brk; lia.
Qed.



End PdfLayout.

Section PdfDocument.
Context `{Host}.




End PdfDocument.


Section Headers.
Context `{Host}.

Lemma pdfLayout_texts (pageHeight : Z) (title generatedOn : string)
    (fields : list string) (data : list jsval) :
  exists doc,
    pdfLayout pageHeight title generatedOn fields data = Ok doc /\
    headerTexts doc = map capitalize fields /\
    dataTexts doc =
      flat_map (fun item => map (fun f => displayValue (projected item f)) fields) data.
Proof.
  unfold pdfLayout.
  destruct (pdfRows_texts pageHeight fields (columnWidths fields) data 0 0 (tableTop + 30))
    as (rows & pE & tE & -> & Hh & Hd & _).
  cbn [exn_bind]. eexists. split; [reflexivity|].
  destruct (pdfHeader_texts fields 0 (columnWidths fields) tableLeft) as (Hhh & Hhd & _).
  rewrite !headerTexts_app, !dataTexts_app, Hhh, Hh, Hhd, Hd. cbn.
  rewrite !app_nil_r. auto.
Qed.



End Headers.

(** ** Running the renderers *)

Section RunRenderers.
Context `{Host}.

Lemma generateFilename_run (dataType : ExportDataType) (format : ExportFormat) (w : World) :
  generateFilename dataType format w = (Ok (filenameAt dataType format (now w)), w).
Proof. reflexivity. Qed.

Lemma ensureExportDirectory_run (w : World) :
  ensureExportDirectory w = (Ok (exportDirOf w), withExportDir w).
Proof.
  unfold ensureExportDirectory, withExportDir, exportDirOf.
  destruct (decide (path_join (cwd w) "exports" ∈ dirs w)); reflexivity.
Qed.

Lemma withExportDir_fields (w : World) :
  now (withExportDir w) = now w /\ cwd (withExportDir w) = cwd w /\
  db (withExportDir w) = db w /\ dbCalls (withExportDir w) = dbCalls w /\
  files (withExportDir w) = files w /\ writeFault (withExportDir w) = writeFault w.
Proof. unfold withExportDir. destruct (decide _); simpl; auto 10. Qed.

Ltac run_prelude w :=
  unfold tryCatch, bind;
  rewrite ensureExportDirectory_run;
  destruct (withExportDir_fields w) as (Hnow & Hcwd & Hdb & Hcalls & Hfiles & Hfault);
  rewrite generateFilename_run, Hnow;
  fold (artifactPath w).

(** [exportToCsv]: one write of the CSV text, straight to the final path. *)
Lemma exportToCsv_run (data : list jsval) (fields : list string)
    (dataType : ExportDataType) (w : World) :
  exportToCsv data fields dataType w =
  let path := artifactPath w dataType CSV in
  let csv := Parser_parse fields data in
  match writeFault w with
  | None => (Ok path, set_files (<[path := TextFile csv]> (files w)) (withExportDir w))
  | Some k =>
      (Throw (ApiError ("Failed to export data to CSV: " +:+ message writeError) 500),
       set_files (<[path := TextFile (string_take k csv)]> (files w)) (withExportDir w))
  end.
Proof.
  unfold exportToCsv. run_prelude w.
  unfold writeFileSync, throw, ret. rewrite Hfault, Hfiles.
  destruct (writeFault w); reflexivity.
Qed.

Lemma exportToJson_run (data : list jsval) (dataType : ExportDataType) (w : World) :
  exportToJson data dataType w =
  let path := artifactPath w dataType JSON in
  match writeFault w with
  | None => (Ok path,
             set_files (<[path := TextFile (JSON_stringify data)]> (files w)) (withExportDir w))
  | Some k =>
      (Throw (ApiError ("Failed to export data to JSON: " +:+ message writeError) 500),
       set_files (<[path := TextFile (string_take k (JSON_stringify data))]> (files w))
                 (withExportDir w))
  end.
Proof.
  unfold exportToJson. run_prelude w.
  unfold writeFileSync, throw, ret. rewrite Hfault, Hfiles.
  destruct (writeFault w); reflexivity.
Qed.

(** [exportToExcel] without fields: the auto-fit loop throws before the
    directory is looked at, and nothing is written. *)
Lemma exportToExcel_no_fields (data : list jsval) (dataType : ExportDataType) (w : World) :
  exportToExcel data [] dataType w = (Throw noColumnsError, w).
Proof.
  unfold exportToExcel, tryCatch, bind, lift.
  rewrite excelSheet_spec, autoFit_spec. reflexivity.
Qed.

Lemma exportToExcel_run (data : list jsval) (fields : list string)
    (dataType : ExportDataType) (w : World) :
  fields <> [] ->
  exportToExcel data fields dataType w =
  let path := artifactPath w dataType EXCEL in
  let sheet := fittedSheet data fields dataType in
  match writeFault w with
  | None => (Ok path, set_files (<[path := XlsxFile sheet]> (files w)) (withExportDir w))
  | Some k =>
      (Throw (ApiError ("Failed to export data to Excel: " +:+ message writeError) 500),
       set_files (<[path := Truncated k]> (files w)) (withExportDir w))
  end.
Proof.
  intros Hne. unfold exportToExcel. unfold tryCatch, bind at 1 2. unfold lift.
  rewrite excelSheet_spec, autoFit_spec.
  destruct fields as [|f fields]; [congruence|].
  unfold bind. rewrite ensureExportDirectory_run.
  destruct (withExportDir_fields w) as (Hnow & Hcwd & Hdb & Hcalls & Hfiles & Hfault).
  rewrite generateFilename_run, Hnow. fold (artifactPath w).
  unfold writeDocument, throw, ret. rewrite Hfault, Hfiles.
  destruct (writeFault w); reflexivity.
Qed.

Lemma exportToPdf_run (data : list jsval) (fields : list string)
    (dataType : ExportDataType) (title : string) (w : World) :
  exists doc,
    pdfLayout letterHeight title (Date_toLocaleString (now w)) fields data = Ok doc /\
    exportToPdf data fields dataType title w =
    let path := artifactPath w dataType PDF in
    match writeFault w with
    | None => (Ok path, set_files (<[path := PdfFile doc]> (files w)) (withExportDir w))
    | Some k =>
        (Throw (ApiError ("Failed to export data to PDF: " +:+ message writeError) 500),
         set_files (<[path := Truncated k]> (files w)) (withExportDir w))
    end.
Proof.
  destruct (pdfLayout_texts letterHeight title (Date_toLocaleString (now w)) fields data)
    as (doc & Hdoc & _).
  exists doc. split; [exact Hdoc|].
  unfold exportToPdf. run_prelude w.
  unfold createWriteStream, Date_now, lift, writeDocument, throw, ret. simpl.
  rewrite Hnow, Hdoc, Hfault, Hfiles.
  destruct (writeFault w); simpl; rewrite insert_insert_eq; reflexivity.
Qed.

End RunRenderers.

(** ** Header cells *)

Section HeaderCells.
Context `{Host}.

Lemma append_nil_l (s : string) : "" +:+ s = s.
Proof. reflexivity. Qed.

Lemma append_cons (c : ascii) (a s : string) : String c a +:+ s = String c (a +:+ s).
Proof. reflexivity. Qed.






End HeaderCells.



(** ** Filenames *)

Lemma replaceColonDot_chars (s : string) :
  list_ascii_of_string (replaceColonDot s) =
  map (fun c => if (Ascii.eqb c ":" || Ascii.eqb c ".")%bool then "-"%char else c)
      (list_ascii_of_string s).
Proof. induction s as [|c s IH]; simpl; [reflexivity|]. rewrite IH. reflexivity. Qed.

Lemma replaceColonDot_safe (s : string) :
  Forall (fun c => c <> ":"%char /\ c <> "."%char)
         (list_ascii_of_string (replaceColonDot s)).
Proof.
  rewrite replaceColonDot_chars. apply List.Forall_forall. intros c Hin.
  apply in_map_iff in Hin. destruct Hin as (c0 & <- & _).
  destruct (Ascii.eqb_spec c0 ":") as [->|Hc]; simpl; [split; discriminate|].
  destruct (Ascii.eqb_spec c0 ".") as [->|Hd]; simpl; [split; discriminate|].
  split; assumption.
Qed.




(** ** Writing the delimited-text file *)

(** C4 (amended). [exportToCsv] writes the CSV text with one direct write
    to the final path and touches no other path: without a device fault
    the file there holds the whole text; with a fault after [k] bytes the
    call fails with an ApiError of status 500 and the first [k] bytes
    stay at the final path. *)
Theorem csv_written_in_place `{Host} (data : list jsval) (fields : list string)
    (dataType : ExportDataType) (w : World) :
  let path := artifactPath w dataType CSV in
  let csv := Parser_parse fields data in
  exists r w',
    exportToCsv data fields dataType w = (r, w') /\
    (forall p, p <> path -> files w' !! p = files w !! p) /\
    (writeFault w = None -> r = Ok path /\ files w' !! path = Some (TextFile csv)) /\
    (forall k, writeFault w = Some k ->
       r = Throw (ApiError
                    "Failed to export data to CSV: ENOSPC: no space left on device, write"
                    500) /\
       files w' !! path = Some (TextFile (string_take k csv))).
Proof.
  intros path csv. rewrite exportToCsv_run. cbv zeta. fold path. fold csv.
  destruct (writeFault w) as [k|] eqn:Hf; eexists _, _; (split; [reflexivity|]); simpl.
  - split; [intros p Hp; apply lookup_insert_ne; congruence|].
    split; [discriminate|].
    intros k' [= <-]. split; [reflexivity|apply lookup_insert_eq].
  - split; [intros p Hp; apply lookup_insert_ne; congruence|].
    split; [|discriminate].
    intros _. split; [reflexivity|apply lookup_insert_eq].
Qed.

Lemma csv_written_in_place_witness :
  let w := mkWorld 0 "/srv/app" emptySource 0 ∅ ∅ None in
  writeFault w = None /\
  exists w', exportToCsv (H := exampleHost) [JObj [("id", JStr "a")]] ["id"] ORDERS w
             = (Ok (artifactPath w ORDERS CSV), w') /\
             files w' !! artifactPath w ORDERS CSV
             = Some (TextFile (Parser_parse (H := exampleHost) ["id"] [JObj [("id", JStr "a")]])).
Proof.
  intros w. split; [reflexivity|].
  destruct (@csv_written_in_place exampleHost [JObj [("id", JStr "a")]] ["id"] ORDERS w)
    as (r & w' & Hrun & _ & Hok & _).
  destruct (Hok eq_refl) as [-> Hfile].
  exists w'. split; [exact Hrun|exact Hfile].
Defined.

(** C4 as stated fails: a write that breaks off after 4 bytes leaves a
    4-byte file under the final name, and the call only reports the
    error. *)
Lemma csv_partial_file_counterexample :
  let w := mkWorld 0 "/srv/app" emptySource 0 ∅ ∅ (Some 4%nat) in
  let csv := Parser_parse (H := exampleHost) ["id"] [JObj [("id", JStr "a")]] in
  let out := exportToCsv (H := exampleHost) [JObj [("id", JStr "a")]] ["id"] ORDERS w in
  fst out = Throw (ApiError
                     "Failed to export data to CSV: ENOSPC: no space left on device, write"
                     500) /\
  files (snd out) !! "/srv/app/exports/orders-export-1970-01-01T00-00-00-000Z.csv"
    = Some (TextFile (string_take 4 csv)) /\
  string_take 4 csv <> csv.
Proof.
  intros w csv out. subst out. rewrite exportToCsv_run. cbv zeta. simpl fst. simpl snd.
  split; [reflexivity|]. split.
  - simpl files. apply lookup_insert_eq.
  - vm_compute. discriminate.
Qed.

Example month_trunc_feb29 :
  utcTrunc (SqlDateTrunc "month") 951782400000 = 949363200000 /\
  toISOString 949363200000 = "2000-02-01T00:00:00.000Z".
Proof. split; reflexivity. Qed.

Example week_trunc_tuesday :
  toISOString (utcTrunc (SqlDateTrunc "week") 1700000000123) = "2023-11-13T00:00:00.000Z".
Proof. reflexivity. Qed.

(** ** Missing numeric aggregates *)

(** C9. A sales bucket whose item sum, mean or total is NULL gets 0 and
    "0.00"; a product without reviews gets the rating "0.00"; an order
    with a null discount gets 0.  The workbook cell and the PDF text of
    such a value are 0 / "0" and "0.00", not empty; the items sold of any
    bucket are a number. *)
Theorem missing_aggregates_are_zero `{Host} :
  (forall d s o a, projected (formatSale (mkSalesRow d s o a None)) "itemsSold" = num_of_Z 0) /\
  (forall d s o i,
     projected (formatSale (mkSalesRow d s o None i)) "avgOrderValue" = JStr "0.00") /\
  (forall d o a i, projected (formatSale (mkSalesRow d None o a i)) "sales" = JStr "0.00") /\
  (forall row, exists n, projected (formatSale row) "itemsSold" = JNum n /\ n <> NaN) /\
  (forall product, p_reviews product = [] ->
     projected (formatProduct product) "averageRating" = JStr "0.00") /\
  (forall order, o_discountAmount order = None ->
     projected (formatOrder order) "discountAmount" = num_of_Z 0) /\
  excelCell (num_of_Z 0) = num_of_Z 0 /\ displayValue (num_of_Z 0) = "0" /\
  excelCell (JStr "0.00") = JStr "0.00" /\ displayValue (JStr "0.00") = "0.00".
Proof.
  split; [reflexivity|]. split; [reflexivity|]. split; [reflexivity|].
  split.
  { intros row. unfold projected, formatSale, projectField. simpl.
    unfold or_zero. destruct (Number_sql (sr_itemssold row)) as [|q] eqn:Hn; simpl.
    - eexists. split; [reflexivity|discriminate].
    - destruct (Qeq_bool q 0); simpl; eexists; (split; [reflexivity|discriminate]). }
  split.
  { intros product Hr. unfold projected, formatProduct, projectField. simpl.
    rewrite Hr. reflexivity. }
  split.
  { intros order Hd. unfold projected, formatOrder, projectField. simpl.
    rewrite Hd. reflexivity. }
  repeat split.
Qed.

Lemma missing_aggregates_are_zero_witness :
  let product := mkProduct "p1" "Case" "SKU1" None None 10 None 3 false true [] 0 0 in
  p_reviews product = [] /\
  projected (H := exampleHost) (formatProduct (H := exampleHost) product) "averageRating" = JStr "0.00".
Proof.
  intros product. split; [reflexivity|].
  destruct (@missing_aggregates_are_zero exampleHost) as (_ & _ & _ & _ & Hp & _).
  apply Hp. reflexivity.
Defined.

(** ** Range filters *)

Section Ranges.
Context `{Host}.
Variable filters : gmap string jsval.





End Ranges.



(** ** Unsupported formats *)

Section Unsupported.
Context `{Host}.

Lemma renderAs_unrecognized (format : string) (data : list jsval) (fields : list string)
    (dataType : ExportDataType) (title : string) :
  recognized format = false ->
  renderAs format data fields dataType title =
  throw (ApiError ("Unsupported export format: " +:+ format) 400).
Proof.
  unfold recognized. simpl. intros Hr.
  repeat (apply orb_false_elim in Hr; destruct Hr as [? Hr]).
  unfold renderAs. cbn [format_value].
  repeat match goal with Heq : String.eqb _ _ = false |- _ => rewrite Heq; clear Heq end.
  reflexivity.
Qed.

Lemma salesQuery_run (filters : gmap string jsval) (w : World) :
  exists q, salesQuery filters w = (Ok q, w).
Proof.
  unfold salesQuery, salesEndDate, bind, ret, Date_now.
  destruct (truthy (filter_get filters "endDate")); simpl; eauto.
Qed.

(** C1 (amended). With a format outside csv, excel, pdf, json every
    export first sends its one query to the data source and only then
    fails: with the data source's own error if the query failed, else
    with ApiError "Unsupported export format: ..." of status 400.  No
    file or directory is created. *)
Theorem unsupported_format_fails_after_query (kind : ReportKind) (format : string)
    (filters : gmap string jsval) (w : World) :
  recognized format = false ->
  exists r w',
    exportKind kind format filters w = (r, w') /\
    dbCalls w' = S (dbCalls w) /\ files w' = files w /\ dirs w' = dirs w /\
    r = match sourceAnswer kind filters w with
        | Ok _ => Throw (ApiError ("Unsupported export format: " +:+ format) 400)
        | Throw e => Throw e
        end.
Proof.
  intros Hr.
  destruct kind; unfold exportKind, sourceAnswer;
    [unfold exportOrders|unfold exportProducts|unfold exportCustomers
    |unfold exportSales|unfold exportInventory|unfold exportVendors];
    unfold tryCatch, bind, query, rethrow;
    try (destruct (salesQuery_run filters w) as (q & ->); cbn [fst exn_bind]);
    match goal with
    | |- context [match ?call with Ok _ => _ | Throw _ => _ end] =>
        destruct call as [rows|e] eqn:Hcall
    end;
    try rewrite (renderAs_unrecognized _ _ _ _ _ Hr);
    unfold throw; cbn [exn_bind]; eexists _, _; repeat split.
Qed.

End Unsupported.

Lemma unsupported_format_fails_after_query_witness :
  recognized "xml" = false /\
  fst (exportKind (H := exampleHost) Orders "xml" ∅ (exampleWorld emptySource 0))
  = Throw (ApiError "Unsupported export format: xml" 400).
Proof.
  split; [reflexivity|].
  destruct (@unsupported_format_fails_after_query exampleHost Orders "xml" ∅
              (exampleWorld emptySource 0) eq_refl) as (r & w' & Hrun & _ & _ & _ & Hr).
  rewrite Hrun. exact Hr.
Defined.

(** C1 as stated fails: the call-counting stub has been queried once by
    the time the unsupported format is reported. *)
Lemma unsupported_format_call_count_counterexample :
  let out := exportOrders (H := exampleHost) "xml" ∅ (exampleWorld emptySource 0) in
  recognized "xml" = false /\
  fst out = Throw (ApiError "Unsupported export format: xml" 400) /\
  dbCalls (snd out) = 1%nat /\ dbCalls (snd out) <> 0%nat.
Proof. repeat split. discriminate. Qed.

(** ** The sales buckets *)

Section SalesBuckets.
Context `{Host}.
Variable dateTrunc : SqlDateExpr -> Z -> Z.

Lemma insertGroup_keys (P : Z -> Prop) (key : Z) (o : Sql.OrderRow)
    (groups : list (Z * list Sql.OrderRow)) :
  P key -> List.Forall P (map fst groups) ->
  List.Forall P (map fst (Sql.insertGroup key o groups)).
Proof.
  intros Hk. induction groups as [|[k os] rest IH]; simpl; intros Hall.
  - constructor; auto.
  - inversion Hall as [|? ? Hk' Hrest]; subst.
    destruct (key <? k); [constructor; auto|].
    destruct (key =? k); simpl; constructor; auto.
Qed.

Lemma insertGroup_sorted (key : Z) (o : Sql.OrderRow)
    (groups : list (Z * list Sql.OrderRow)) :
  StronglySorted Z.lt (map fst groups) ->
  StronglySorted Z.lt (map fst (Sql.insertGroup key o groups)).
Proof.
  induction groups as [|[k os] rest IH]; simpl; intros Hs.
  - repeat constructor.
  - inversion Hs as [|? ? Hrest Hall]; subst.
    destruct (Z.ltb_spec key k) as [Hlt|Hge].
    + simpl. constructor; [exact Hs|]. constructor; [exact Hlt|].
      eapply List.Forall_impl; [|exact Hall]. intros a Ha. simpl in Ha. lia.
    + destruct (Z.eqb_spec key k) as [->|Hne]; simpl.
      * constructor; assumption.
      * constructor; [apply IH; exact Hrest|].
        apply insertGroup_keys; [simpl; lia|exact Hall].
Qed.

Lemma groupBy_sorted (f : Z -> Z) (rows : list Sql.OrderRow) :
  StronglySorted Z.lt (map fst (Sql.groupBy f rows)).
Proof.
  unfold Sql.groupBy.
  assert (Hgen : forall acc, StronglySorted Z.lt (map fst acc) ->
            StronglySorted Z.lt
              (map fst (fold_left (fun groups o =>
                                     Sql.insertGroup (f (Sql.createdAt o)) o groups)
                                  rows acc))).
  { induction rows as [|o rows IH]; simpl; intros acc Hacc; [exact Hacc|].
    apply IH, insertGroup_sorted, Hacc. }
  apply Hgen. constructor.
Qed.

Lemma runSalesQuery_sorted (orders : list Sql.OrderRow) (q : SalesQuery) (s e : Z) :
  sq_startDate q = Some s -> sq_endDate q = Some e ->
  exists buckets,
    Sql.runSalesQuery dateTrunc orders q = Ok buckets /\
    StronglySorted Z.lt (map sr_date buckets).
Proof.
  intros Hs He. unfold Sql.runSalesQuery. rewrite Hs, He.
  eexists. split; [reflexivity|].
  rewrite map_map. simpl. apply groupBy_sorted.
Qed.

Lemma tryCatch_rethrow {A} (m : M A) (w : World) : tryCatch m rethrow w = m w.
Proof. unfold tryCatch, rethrow, throw. destruct (m w) as [[a|e] w']; reflexivity. Qed.

(** C5. The sales assembler groups by one of four date expressions: by
    hour, week or month for the intervals hourly, weekly, monthly, and by
    day otherwise, in particular when no interval is given.  A data
    source that evaluates the query as SQL answers with buckets in
    strictly ascending order of their start, and the rows handed to the
    renderer are those buckets, formatted one by one in that order. *)
Theorem sales_granularity_and_order (orders : list Sql.OrderRow) (format : string)
    (filters : gmap string jsval) (w : World) :
  queryRaw_sales (db w) = Sql.runSalesQuery dateTrunc orders ->
  exists q,
    salesQuery filters w = (Ok q, w) /\
    In (sq_dateFormat q)
       [SqlDateTrunc "hour"; SqlDate; SqlDateTrunc "week"; SqlDateTrunc "month"] /\
    (strict_eq_str (filter_get filters "interval") "hourly" = true ->
       sq_dateFormat q = SqlDateTrunc "hour") /\
    (strict_eq_str (filter_get filters "interval") "daily" = true ->
       sq_dateFormat q = SqlDate) /\
    (strict_eq_str (filter_get filters "interval") "weekly" = true ->
       sq_dateFormat q = SqlDateTrunc "week") /\
    (strict_eq_str (filter_get filters "interval") "monthly" = true ->
       sq_dateFormat q = SqlDateTrunc "month") /\
    (truthy (filter_get filters "interval") = false -> sq_dateFormat q = SqlDate) /\
    (forall s e, sq_startDate q = Some s -> sq_endDate q = Some e ->
       exists buckets,
         queryRaw_sales (db w) q = Ok buckets /\
         StronglySorted Z.lt (map sr_date buckets) /\
         exportSales format filters w =
           renderAs format (map formatSale buckets) salesFields SALES "Sales Report"
                    (count_call w)) /\
    (truthy (filter_get filters "startDate") = false ->
     truthy (filter_get filters "endDate") = false ->
       sq_endDate q = Some (now w) /\ sq_startDate q = Some (now w - thirtyDays)).
Proof.
  intros Hdb.
  assert (Hq : salesQuery filters w =
               (Ok (mkSalesQuery (salesDateFormat (salesInterval filters))
                      (salesStartDate filters
                         (if truthy (filter_get filters "endDate")
                          then newDate (filter_get filters "endDate") else Some (now w)))
                      (if truthy (filter_get filters "endDate")
                       then newDate (filter_get filters "endDate") else Some (now w))), w)).
  { unfold salesQuery, salesEndDate, bind, ret, Date_now.
    destruct (truthy (filter_get filters "endDate")); reflexivity. }
  eexists. split; [exact Hq|]. cbn [sq_dateFormat sq_startDate sq_endDate].
  unfold salesDateFormat, salesInterval.
  set (interval := filter_get filters "interval").
  split.
  { destruct (truthy interval); simpl;
      repeat match goal with |- context [strict_eq_str ?v ?s] =>
               destruct (strict_eq_str v s) end; simpl; auto. }
  split.
  { intros Hi. destruct interval; try discriminate Hi. simpl in Hi.
    apply String.eqb_eq in Hi. subst. reflexivity. }
  split.
  { intros Hi. destruct interval; try discriminate Hi. simpl in Hi.
    apply String.eqb_eq in Hi. subst. reflexivity. }
  split.
  { intros Hi. destruct interval; try discriminate Hi. simpl in Hi.
    apply String.eqb_eq in Hi. subst. reflexivity. }
  split.
  { intros Hi. destruct interval; try discriminate Hi. simpl in Hi.
    apply String.eqb_eq in Hi. subst. reflexivity. }
  split.
  { intros Hi. rewrite Hi. reflexivity. }
  split.
  { intros s e Hs He. rewrite Hdb.
    match goal with |- context [Sql.runSalesQuery _ _ ?q] =>
      destruct (runSalesQuery_sorted orders q s e Hs He) as (buckets & Hrun & Hsorted)
    end.
    exists buckets. split; [exact Hrun|]. split; [exact Hsorted|].
    unfold exportSales. rewrite tryCatch_rethrow.
    unfold bind at 1. rewrite Hq. unfold bind, query. rewrite Hdb.
    unfold salesDateFormat, salesInterval. fold interval. rewrite Hrun. reflexivity. }
  intros Hs He. unfold salesStartDate. rewrite Hs, He. simpl. auto.
Qed.

End SalesBuckets.

Lemma sales_granularity_and_order_witness :
  let w := exampleWorld (sqlSource (H := exampleHost) threeDays) 1706659200000 in
  queryRaw_sales (db w) = Sql.runSalesQuery (H := exampleHost) utcTrunc threeDays /\
  truthy (filter_get ∅ "interval") = false /\
  exists q, salesQuery (H := exampleHost) ∅ w = (Ok q, w) /\ sq_dateFormat q = SqlDate.
Proof.
  intros w. split; [reflexivity|]. split; [reflexivity|].
  destruct (@sales_granularity_and_order exampleHost utcTrunc threeDays "csv" ∅ w eq_refl)
    as (q & Hq & _ & _ & _ & _ & _ & Hdaily & _).
  exists q. split; [exact Hq|]. apply Hdaily. reflexivity.
Defined.

(** Orders on three consecutive days: three daily buckets in ascending
    order with the sums of each day, and one monthly bucket. *)
Example three_days_daily :
  exn_bind (Sql.runSalesQuery (H := exampleHost) utcTrunc threeDays
              (mkSalesQuery SqlDate (Some 1704067200000) (Some 1706659200000)))
           (fun rows => Ok (map (fun r => (projected (H := exampleHost) (formatSale (H := exampleHost) r) "date",
                                          projected (H := exampleHost) (formatSale (H := exampleHost) r) "sales"))
                                rows))
  = Ok [(JStr "2024-01-01", JStr "15.00"); (JStr "2024-01-02", JStr "20.00");
        (JStr "2024-01-03", JStr "30.00")].
Proof. vm_compute. reflexivity. Qed.

Example three_days_monthly :
  exn_bind (Sql.runSalesQuery (H := exampleHost) utcTrunc threeDays
              (mkSalesQuery (SqlDateTrunc "month") (Some 1704067200000) (Some 1706659200000)))
           (fun rows => Ok (map (fun r => (projected (H := exampleHost) (formatSale (H := exampleHost) r) "date",
                                          projected (H := exampleHost) (formatSale (H := exampleHost) r) "sales"))
                                rows))
  = Ok [(JStr "2024-01-01", JStr "65.00")].
Proof. vm_compute. reflexivity. Qed.

(** ** Repeating an export *)

Section Repeat.
Context `{Host}.

Lemma pdfLayout_cells_stable (pageHeight : Z) (title g1 g2 : string)
    (fields : list string) (data : list jsval) (d1 d2 : PdfDoc) :
  pdfLayout pageHeight title g1 fields data = Ok d1 ->
  pdfLayout pageHeight title g2 fields data = Ok d2 ->
  List.filter isCell d1 = List.filter isCell d2.
Proof.
  unfold pdfLayout.
  destruct (pdfRows pageHeight fields (columnWidths fields) data 0 0 (tableTop + 30))
    as [[[rows pE] tE]|e]; cbn [exn_bind]; [|discriminate].
  intros [= <-] [= <-]. reflexivity.
Qed.

(** On success a renderer leaves at the returned path a file whose table
    depends on the rows and fields only. *)
Lemma renderAs_same_table (format : string) (data : list jsval) (fields : list string)
    (dataType : ExportDataType) (title : string) (w1 w2 w1' w2' : World) (p1 p2 : string) :
  renderAs format data fields dataType title w1 = (Ok p1, w1') ->
  renderAs format data fields dataType title w2 = (Ok p2, w2') ->
  exists c1 c2,
    files w1' !! p1 = Some c1 /\ files w2' !! p2 = Some c2 /\ tableOf c1 = tableOf c2.
Proof.
  unfold renderAs.
  destruct (String.eqb format (format_value CSV)).
  { rewrite !exportToCsv_run. cbv zeta.
    destruct (writeFault w1), (writeFault w2); try discriminate.
    intros [= <- <-] [= <- <-]. simpl. rewrite !lookup_insert_eq. eauto. }
  destruct (String.eqb format (format_value EXCEL)).
  { destruct fields as [|f fields]; [rewrite !exportToExcel_no_fields; discriminate|].
    rewrite !exportToExcel_run by discriminate. cbv zeta.
    destruct (writeFault w1), (writeFault w2); try discriminate.
    intros [= <- <-] [= <- <-]. simpl. rewrite !lookup_insert_eq. eauto. }
  destruct (String.eqb format (format_value PDF)).
  { destruct (exportToPdf_run data fields dataType title w1) as (d1 & Hd1 & ->).
    destruct (exportToPdf_run data fields dataType title w2) as (d2 & Hd2 & ->).
    cbv zeta.
    destruct (writeFault w1), (writeFault w2); try discriminate.
    intros [= <- <-] [= <- <-]. simpl. rewrite !lookup_insert_eq.
    eexists _, _. split; [reflexivity|]. split; [reflexivity|]. simpl.
    f_equal. eapply pdfLayout_cells_stable; eauto. }
  destruct (String.eqb format (format_value JSON)).
  { rewrite !exportToJson_run. cbv zeta.
    destruct (writeFault w1), (writeFault w2); try discriminate.
    intros [= <- <-] [= <- <-]. simpl. rewrite !lookup_insert_eq. eauto. }
  discriminate.
Qed.

(** The shape shared by the assemblers: one query, then the renderer. *)
Lemma assemble_run {A} (run : DataSource -> Exn A) (render : A -> M string) (w : World) :
  tryCatch (bind (query run) render) rethrow w =
  match run (db w) with
  | Ok rows => render rows (count_call w)
  | Throw e => (Throw e, count_call w)
  end.
Proof.
  rewrite tryCatch_rethrow. unfold bind, query. destruct (run (db w)); reflexivity.
Qed.

Lemma assemble_same_table {A} (run : DataSource -> Exn A) (fmt : A -> list jsval)
    (format : string) (fields : list string) (dataType : ExportDataType) (title : string)
    (w1 w2 w1' w2' : World) (p1 p2 : string) :
  db w1 = db w2 ->
  tryCatch (bind (query run) (fun rows => renderAs format (fmt rows) fields dataType title))
           rethrow w1 = (Ok p1, w1') ->
  tryCatch (bind (query run) (fun rows => renderAs format (fmt rows) fields dataType title))
           rethrow w2 = (Ok p2, w2') ->
  exists c1 c2,
    files w1' !! p1 = Some c1 /\ files w2' !! p2 = Some c2 /\ tableOf c1 = tableOf c2.
Proof.
  intros Hdb. rewrite !assemble_run, Hdb.
  destruct (run (db w2)) as [rows|e]; [|discriminate].
  apply renderAs_same_table.
Qed.

Lemma salesQuery_same (filters : gmap string jsval) (w1 w2 : World) :
  truthy (filter_get filters "endDate") = true \/ now w1 = now w2 ->
  fst (salesQuery filters w1) = fst (salesQuery filters w2).
Proof.
  unfold salesQuery, salesEndDate, bind, ret, Date_now.
  destruct (truthy (filter_get filters "endDate")); simpl; [reflexivity|].
  intros [Hf | Hn]; [discriminate|rewrite Hn; reflexivity].
Qed.

(** C7 (amended). Two successful exports of the same kind and format
    with the same FilterSet against the same data source leave files with
    the same table (header and rows, in the same order), whatever the
    clocks and file systems, for orders, products, customers, inventory
    and vendors, and for sales when the end date of the FilterSet is
    truthy (a missing or falsy one is replaced by the clock) or both
    calls read the same clock. *)
Theorem export_twice_same_table (kind : ReportKind) (format : string)
    (filters : gmap string jsval) (w1 w2 w1' w2' : World) (p1 p2 : string) :
  db w1 = db w2 ->
  kind <> Sales \/ truthy (filter_get filters "endDate") = true \/ now w1 = now w2 ->
  exportKind kind format filters w1 = (Ok p1, w1') ->
  exportKind kind format filters w2 = (Ok p2, w2') ->
  exists c1 c2,
    files w1' !! p1 = Some c1 /\ files w2' !! p2 = Some c2 /\ tableOf c1 = tableOf c2.
Proof.
  intros Hdb Hclock.
  destruct kind; unfold exportKind;
    try (eapply (assemble_same_table _ (map _)); exact Hdb).
  assert (Hq : fst (salesQuery filters w1) = fst (salesQuery filters w2)).
  { apply salesQuery_same. destruct Hclock as [Hk|Hk]; [congruence|exact Hk]. }
  unfold exportSales. rewrite !tryCatch_rethrow. unfold bind at 1 3.
  destruct (salesQuery_run filters w1) as (q1 & Hq1).
  destruct (salesQuery_run filters w2) as (q2 & Hq2).
  rewrite Hq1, Hq2 in Hq. simpl in Hq. injection Hq as <-.
  rewrite Hq1, Hq2. unfold bind, query. rewrite Hdb.
  destruct (queryRaw_sales (db w2) q1) as [rows|e]; [|discriminate].
  apply renderAs_same_table.
Qed.

End Repeat.

Lemma export_twice_same_table_witness :
  let w1 := exampleWorld (sqlSource (H := exampleHost) threeDays) 1706659200000 in
  let w2 := exampleWorld (sqlSource (H := exampleHost) threeDays) 1800000000000 in
  let filters : gmap string jsval :=
    {[ "startDate" := JStr "2024-01-01"; "endDate" := JStr "2024-01-31" ]} in
  let out1 := exportKind (H := exampleHost) Sales "pdf" filters w1 in
  let out2 := exportKind (H := exampleHost) Sales "pdf" filters w2 in
  db w1 = db w2 /\ truthy (filter_get filters "endDate") = true /\
  fst out1 = Ok "/srv/app/exports/sales-export-2024-01-31T00-00-00-000Z.pdf" /\
  fst out2 = Ok "/srv/app/exports/sales-export-2027-01-15T08-00-00-000Z.pdf" /\
  exists c1 c2,
    files (snd out1) !! "/srv/app/exports/sales-export-2024-01-31T00-00-00-000Z.pdf" = Some c1 /\
    files (snd out2) !! "/srv/app/exports/sales-export-2027-01-15T08-00-00-000Z.pdf" = Some c2 /\
    tableOf c1 = tableOf c2.
Proof.
  intros w1 w2 filters out1 out2.
  assert (H1 : fst out1 = Ok "/srv/app/exports/sales-export-2024-01-31T00-00-00-000Z.pdf")
    by (vm_compute; reflexivity).
  assert (H2 : fst out2 = Ok "/srv/app/exports/sales-export-2027-01-15T08-00-00-000Z.pdf")
    by (vm_compute; reflexivity).
  split; [reflexivity|]. split; [reflexivity|]. split; [exact H1|]. split; [exact H2|].
  apply (@export_twice_same_table exampleHost Sales "pdf" filters w1 w2 (snd out1) (snd out2)).
  - reflexivity.
  - right. left. reflexivity.
  - rewrite <- H1. subst out1. destruct (exportKind Sales "pdf" filters w1). reflexivity.
  - rewrite <- H2. subst out2. destruct (exportKind Sales "pdf" filters w2). reflexivity.
Defined.

(** C7 as stated fails for a sales export without end date: the window
    ends at the clock, so the same orders are inside it on 2 January and
    outside it on 10 February.  The workbook of the first call has two
    data rows, that of the second none. *)
Lemma sales_without_end_date_counterexample :
  let w1 := exampleWorld (sqlSource (H := exampleHost) threeDays) 1704153600000 in
  let w2 := exampleWorld (sqlSource (H := exampleHost) threeDays) 1707523200000 in
  let out1 := exportSales (H := exampleHost) "excel" ∅ w1 in
  let out2 := exportSales (H := exampleHost) "excel" ∅ w2 in
  let header := [JStr "Date"; JStr "Sales"; JStr "Orders"; JStr "AvgOrderValue";
                 JStr "ItemsSold"] in
  let c1 := XlsxFile (mkWorksheet "sales"
              [header;
               [JStr "2024-01-01"; JStr "15.00"; num_of_Z 2; JStr "7.50"; num_of_Z 7];
               [JStr "2024-01-02"; JStr "20.00"; num_of_Z 1; JStr "20.00"; num_of_Z 0]]
              [12; 10; 10; 15; 12]) in
  let c2 := XlsxFile (mkWorksheet "sales" [header] [10; 10; 10; 15; 10]) in
  db w1 = db w2 /\
  fst out1 = Ok "/srv/app/exports/sales-export-2024-01-02T00-00-00-000Z.excel" /\
  fst out2 = Ok "/srv/app/exports/sales-export-2024-02-10T00-00-00-000Z.excel" /\
  files (snd out1) !! "/srv/app/exports/sales-export-2024-01-02T00-00-00-000Z.excel"
    = Some c1 /\
  files (snd out2) !! "/srv/app/exports/sales-export-2024-02-10T00-00-00-000Z.excel"
    = Some c2 /\
  tableOf c1 <> tableOf c2.
Proof.
  intros w1 w2 out1 out2 header c1 c2.
  split; [reflexivity|].
  split; [vm_compute; reflexivity|]. split; [vm_compute; reflexivity|].
  split; [vm_compute; reflexivity|]. split; [vm_compute; reflexivity|].
  discriminate.
Qed.

(** * Further properties of the export service *)

(** ** Every entry point: one query, then one renderer *)

Section EntryPoints.
Context `{Host}.

Lemma exportKind_run (kind : ReportKind) (format : string) (filters : gmap string jsval)
    (w : World) :
  exportKind kind format filters w =
  match assembledRows kind filters w with
  | Ok rows =>
      renderAs format rows (kindFields kind) (kindType kind) (kindTitle kind) (count_call w)
  | Throw e => (Throw e, count_call w)
  end.
Proof.
  destruct kind; unfold exportKind, assembledRows;
    [unfold exportOrders|unfold exportProducts|unfold exportCustomers
    |unfold exportSales|unfold exportInventory|unfold exportVendors];
    rewrite tryCatch_rethrow; unfold bind, query;
    try (destruct (salesQuery_run filters w) as (q & ->); cbn [fst exn_bind]);
    match goal with
    | |- context [match ?call with Ok _ => _ | Throw _ => _ end] =>
        destruct call as [rows|e]
    end; reflexivity.
Qed.

Lemma sourceAnswer_assembled (kind : ReportKind) (filters : gmap string jsval) (w : World) :
  sourceAnswer kind filters w = exn_bind (assembledRows kind filters w) (fun _ => Ok tt).
Proof.
  destruct kind; unfold sourceAnswer, assembledRows;
    match goal with
    | |- context [exn_bind ?call (fun _ => Ok tt)] => destruct call; reflexivity
    end.
Qed.

Lemma renderAs_formatOf (format : string) (data : list jsval) (fields : list string)
    (dataType : ExportDataType) (title : string) :
  renderAs format data fields dataType title =
  match formatOf format with
  | Some CSV => exportToCsv data fields dataType
  | Some EXCEL => exportToExcel data fields dataType
  | Some PDF => exportToPdf data fields dataType title
  | Some JSON => exportToJson data dataType
  | None => throw (ApiError ("Unsupported export format: " +:+ format) 400)
  end.
Proof.
  unfold renderAs, formatOf. cbn [format_value].
  repeat match goal with |- context [String.eqb format ?s] =>
           destruct (String.eqb format s) end; reflexivity.
Qed.

End EntryPoints.

Section Outcomes.
Context `{Host}.

Lemma withExportDir_dirs (w : World) :
  exportDirOf w ∈ dirs (withExportDir w) /\ dirs w ⊆ dirs (withExportDir w).
Proof.
  unfold withExportDir. destruct (decide (exportDirOf w ∈ dirs w)); simpl; set_solver.
Qed.

Lemma kindFields_nonempty (kind : ReportKind) : kindFields kind <> [].
Proof. destruct kind; discriminate. Qed.

Lemma renderAs_ok (format : string) (fmt : ExportFormat) (data : list jsval)
    (fields : list string) (dataType : ExportDataType) (title : string) (w : World) :
  fields <> [] -> formatOf format = Some fmt -> writeFault w = None ->
  exists c,
    renderAs format data fields dataType title w =
    (Ok (artifactPath w dataType fmt),
     set_files (<[artifactPath w dataType fmt := c]> (files w)) (withExportDir w)).
Proof.
  intros Hne Hf Hw. rewrite renderAs_formatOf, Hf. destruct fmt.
  - rewrite exportToCsv_run. cbv zeta. rewrite Hw. eauto.
  - rewrite exportToExcel_run by exact Hne. cbv zeta. rewrite Hw. eauto.
  - destruct (exportToPdf_run data fields dataType title w) as (doc & _ & ->).
    cbv zeta. rewrite Hw. eauto.
  - rewrite exportToJson_run. cbv zeta. rewrite Hw. eauto.
Qed.

Lemma renderAs_fault (format : string) (fmt : ExportFormat) (data : list jsval)
    (fields : list string) (dataType : ExportDataType) (title : string) (w : World)
    (k : nat) :
  fields <> [] -> formatOf format = Some fmt -> writeFault w = Some k ->
  exists c,
    cutShort k c /\
    renderAs format data fields dataType title w =
    (Throw (ApiError ("Failed to export data to " +:+ formatLabel fmt +:+ ": "
                      +:+ "ENOSPC: no space left on device, write") 500),
     set_files (<[artifactPath w dataType fmt := c]> (files w)) (withExportDir w)).
Proof.
  intros Hne Hf Hw. rewrite renderAs_formatOf, Hf. unfold cutShort. destruct fmt.
  - rewrite exportToCsv_run. cbv zeta. rewrite Hw. eauto.
  - rewrite exportToExcel_run by exact Hne. cbv zeta. rewrite Hw. eauto.
  - destruct (exportToPdf_run data fields dataType title w) as (doc & _ & ->).
    cbv zeta. rewrite Hw. eauto.
  - rewrite exportToJson_run. cbv zeta. rewrite Hw. eauto.
Qed.

(** X1. When the data source fails, every export fails with the data
    source's own error, whatever the format, having sent one query and
    touched neither files nor directories. *)
Theorem data_source_error_propagates (kind : ReportKind) (format : string)
    (filters : gmap string jsval) (w : World) (e : JsError) :
  sourceAnswer kind filters w = Throw e ->
  exists w',
    exportKind kind format filters w = (Throw e, w') /\
    files w' = files w /\ dirs w' = dirs w /\ dbCalls w' = S (dbCalls w).
Proof.
  intros Hs. rewrite sourceAnswer_assembled in Hs. rewrite exportKind_run.
  destruct (assembledRows kind filters w) as [rows|e']; simpl in Hs; [discriminate|].
  injection Hs as ->. eexists. repeat split.
Qed.

(** X2. With a recognized format, an answering data source and a working
    device, an export returns the export directory joined with the
    generated filename, leaves a file there, changes no other file,
    leaves the export directory in place and has sent one query. *)
Theorem export_success_writes_one_file (kind : ReportKind) (format : string)
    (fmt : ExportFormat) (filters : gmap string jsval) (w : World) :
  formatOf format = Some fmt -> sourceAnswer kind filters w = Ok tt ->
  writeFault w = None ->
  exists w' c,
    exportKind kind format filters w = (Ok (artifactPath w (kindType kind) fmt), w') /\
    files w' !! artifactPath w (kindType kind) fmt = Some c /\
    (forall p, p <> artifactPath w (kindType kind) fmt -> files w' !! p = files w !! p) /\
    exportDirOf w ∈ dirs w' /\ dirs w ⊆ dirs w' /\ dbCalls w' = S (dbCalls w).
Proof.
  intros Hf Hs Hw. rewrite sourceAnswer_assembled in Hs. rewrite exportKind_run.
  destruct (assembledRows kind filters w) as [rows|e']; simpl in Hs; [|discriminate].
  destruct (renderAs_ok format fmt rows (kindFields kind) (kindType kind) (kindTitle kind)
              (count_call w) (kindFields_nonempty kind) Hf Hw) as (c & ->).
  destruct (withExportDir_fields (count_call w)) as (_ & _ & _ & Hcalls & _ & _).
  destruct (withExportDir_dirs (count_call w)) as (Hin & Hsub).
  eexists _, c. split; [reflexivity|].
  split; [apply lookup_insert_eq|].
  split; [intros p Hp; simpl; apply lookup_insert_ne; intros Heq; apply Hp; symmetry; exact Heq|].
  split; [exact Hin|]. split; [exact Hsub|]. simpl. rewrite Hcalls. reflexivity.
Qed.

(** X3. When the device fails during the write, every renderer reports
    an ApiError of status 500 whose message names the format and carries
    the device's message, the assembler passes it on unchanged, and the
    file cut short stays at the final path. *)
Theorem write_fault_surfaces_as_500 (kind : ReportKind) (format : string)
    (fmt : ExportFormat) (filters : gmap string jsval) (w : World) (k : nat) :
  formatOf format = Some fmt -> sourceAnswer kind filters w = Ok tt ->
  writeFault w = Some k ->
  exists w' c,
    exportKind kind format filters w =
      (Throw (ApiError ("Failed to export data to " +:+ formatLabel fmt +:+ ": "
                        +:+ "ENOSPC: no space left on device, write") 500), w') /\
    files w' !! artifactPath w (kindType kind) fmt = Some c /\ cutShort k c /\
    (forall p, p <> artifactPath w (kindType kind) fmt -> files w' !! p = files w !! p).
Proof.
  intros Hf Hs Hw. rewrite sourceAnswer_assembled in Hs. rewrite exportKind_run.
  destruct (assembledRows kind filters w) as [rows|e']; simpl in Hs; [|discriminate].
  destruct (renderAs_fault format fmt rows (kindFields kind) (kindType kind)
              (kindTitle kind) (count_call w) k (kindFields_nonempty kind) Hf Hw)
    as (c & Hc & ->).
  eexists _, c. split; [reflexivity|].
  split; [apply lookup_insert_eq|]. split; [exact Hc|].
  intros p Hp. simpl. apply lookup_insert_ne. intros Heq. apply Hp. symmetry. exact Heq.
Qed.

End Outcomes.

Lemma data_source_error_propagates_witness :
  let w := exampleWorld (failingSource "connection refused") 0 in
  sourceAnswer (H := exampleHost) Sales ∅ w = Throw (DbError "connection refused") /\
  fst (exportKind (H := exampleHost) Sales "pdf" ∅ w) = Throw (DbError "connection refused").
Proof.
  intros w.
  assert (Hs : sourceAnswer (H := exampleHost) Sales ∅ w = Throw (DbError "connection refused"))
    by reflexivity.
  split; [exact Hs|].
  destruct (@data_source_error_propagates exampleHost Sales "pdf" ∅ w
              (DbError "connection refused") Hs) as (w' & Hrun & _).
  rewrite Hrun. reflexivity.
Defined.

Lemma export_success_writes_one_file_witness :
  let w := exampleWorld emptySource 0 in
  formatOf "json" = Some JSON /\ sourceAnswer (H := exampleHost) Vendors ∅ w = Ok tt /\
  writeFault w = None /\
  fst (exportKind (H := exampleHost) Vendors "json" ∅ w)
  = Ok "/srv/app/exports/vendors-export-1970-01-01T00-00-00-000Z.json".
Proof.
  intros w.
  assert (Hs : sourceAnswer (H := exampleHost) Vendors ∅ w = Ok tt) by reflexivity.
  split; [reflexivity|]. split; [exact Hs|]. split; [reflexivity|].
  destruct (@export_success_writes_one_file exampleHost Vendors "json" JSON ∅ w
              eq_refl Hs eq_refl) as (w' & c & Hrun & _).
  rewrite Hrun. reflexivity.
Defined.

Lemma write_fault_surfaces_as_500_witness :
  let w := mkWorld 0 "/srv/app" emptySource 0 ∅ ∅ (Some 7%nat) in
  formatOf "excel" = Some EXCEL /\ sourceAnswer (H := exampleHost) Orders ∅ w = Ok tt /\
  writeFault w = Some 7%nat /\
  fst (exportKind (H := exampleHost) Orders "excel" ∅ w)
  = Throw (ApiError
             "Failed to export data to Excel: ENOSPC: no space left on device, write" 500).
Proof.
  intros w.
  assert (Hs : sourceAnswer (H := exampleHost) Orders ∅ w = Ok tt) by reflexivity.
  split; [reflexivity|]. split; [exact Hs|]. split; [reflexivity|].
  destruct (@write_fault_surfaces_as_500 exampleHost Orders "excel" EXCEL ∅ w 7%nat
              eq_refl Hs eq_refl) as (w' & c & Hrun & _).
  rewrite Hrun. reflexivity.
Defined.

(** ** Filenames tell kinds, formats and instants apart *)

Lemma append_inv_head (s a b : string) : s +:+ a = s +:+ b -> a = b.
Proof.
  induction s as [|c s IH]; rewrite ?append_nil_l, ?append_cons; [auto|].
  intros [= Heq]. auto.
Qed.

Lemma append_dot_split (a a' b b' : string) :
  Forall (fun c => c <> "."%char) (list_ascii_of_string a) ->
  Forall (fun c => c <> "."%char) (list_ascii_of_string a') ->
  a +:+ "." +:+ b = a' +:+ "." +:+ b' -> a = a' /\ b = b'.
Proof.
  revert a'. induction a as [|c a IH]; intros [|c' a'] Ha Ha';
    rewrite ?append_nil_l, ?append_cons, ?append_nil_l; intros Heq.
  - injection Heq as ->. auto.
  - injection Heq as <- _. simpl in Ha'. inversion Ha'; subst. congruence.
  - injection Heq as -> _. simpl in Ha. inversion Ha; subst. congruence.
  - injection Heq as -> Heq. simpl in Ha, Ha'. inversion Ha; inversion Ha'; subst.
    destruct (IH a' ltac:(assumption) ltac:(assumption) Heq) as [-> ->]. auto.
Qed.

Lemma dataType_prefix_inj (d1 d2 : ExportDataType) (x1 x2 : string) :
  dataType_value d1 +:+ "-export-" +:+ x1 = dataType_value d2 +:+ "-export-" +:+ x2 ->
  d1 = d2.
Proof.
  destruct d1, d2; cbn [dataType_value]; rewrite ?append_cons, ?append_nil_l;
    intros Heq; try reflexivity; discriminate Heq.
Qed.

Lemma format_value_inj (f1 f2 : ExportFormat) : format_value f1 = format_value f2 -> f1 = f2.
Proof. destruct f1, f2; simpl; intros Heq; try reflexivity; discriminate Heq. Qed.

Lemma filename_injective (d1 d2 : ExportDataType) (f1 f2 : ExportFormat) (t1 t2 : Z) :
  filenameAt d1 f1 t1 = filenameAt d2 f2 t2 <->
  d1 = d2 /\ f1 = f2 /\
  replaceColonDot (toISOString t1) = replaceColonDot (toISOString t2).
Proof.
  split.
  - unfold filenameAt. intros Heq.
    pose proof (dataType_prefix_inj _ _ _ _ Heq) as ->.
    apply append_inv_head in Heq. apply append_inv_head in Heq.
    apply append_dot_split in Heq.
    + destruct Heq as [Hts Hf]. apply format_value_inj in Hf. auto.
    + eapply List.Forall_impl; [|apply replaceColonDot_safe]. simpl. tauto.
    + eapply List.Forall_impl; [|apply replaceColonDot_safe]. simpl. tauto.
  - intros (-> & -> & Hts). unfold filenameAt. rewrite Hts. reflexivity.
Qed.

(** X5. Generated filenames are told apart by their parts: two names
    are equal exactly when data type, format and the timestamp text
    written into the name are all equal.  So exports of different kinds
    or formats never share a name, whatever the clock, and two exports of
    one kind and format share it exactly when their timestamps coincide
    to the millisecond. *)
Theorem generateFilename_injective (d1 d2 : ExportDataType) (f1 f2 : ExportFormat)
    (w1 w2 : World) :
  fst (generateFilename d1 f1 w1) = fst (generateFilename d2 f2 w2) <->
  d1 = d2 /\ f1 = f2 /\
  replaceColonDot (toISOString (now w1)) = replaceColonDot (toISOString (now w2)).
Proof.
  rewrite <- filename_injective. rewrite !generateFilename_run. simpl.
  split; [intros [= Heq]; exact Heq|intros ->; reflexivity].
Qed.

(** ** Rows and their fields *)

Section RowsAndFields.
Context `{Host}.

Lemma assembledRows_In (kind : ReportKind) (filters : gmap string jsval) (w : World)
    (rows : list jsval) (row : jsval) :
  assembledRows kind filters w = Ok rows -> In row rows ->
  match kind with
  | Orders => exists o, row = formatOrder o
  | Products => exists p, row = formatProduct p
  | Customers => exists c, row = formatCustomer c
  | Sales => exists s, row = formatSale s
  | Inventory => exists p, row = formatInventory p
  | Vendors => exists v, row = formatVendor v
  end.
Proof.
  destruct kind; unfold assembledRows;
    match goal with
    | |- exn_bind ?call _ = _ -> _ => destruct call as [l|e]; simpl; [|discriminate]
    end;
    intros [= <-] Hin; apply in_map_iff in Hin; destruct Hin as (x & <- & _); eauto.
Qed.

Lemma projectField_flat (props : list (string * jsval)) (f : string) (v : jsval) :
  split "." f = [f] -> assoc f props = Some v ->
  projectField (JObj props) f = Ok (if is_undefined v then JNull else v).
Proof.
  intros Hs Hv. unfold projectField. rewrite Hs. simpl.
  rewrite (projectStep_own props f v Hv). reflexivity.
Qed.

Ltac each_field Hf :=
  simpl in Hf;
  repeat (destruct Hf as [<-|Hf];
          [eexists; split;
           [reflexivity|apply projectField_flat; reflexivity]|]);
  contradiction.

(** X6. Every row an assembler builds is an object that has each field
    of its field list as a key exactly once and no other key, so the
    projection of a declared field is the value stored under it (null for
    an undefined one), never the sentinel of an absent key.  Except for
    customers the keys also stand in the order of the field list. *)
Theorem rows_carry_every_field (kind : ReportKind) (filters : gmap string jsval)
    (w : World) (rows : list jsval) (row : jsval) :
  assembledRows kind filters w = Ok rows -> In row rows ->
  row = JObj (propsOf row) /\
  NoDup (keysOf row) /\
  (forall k, In k (keysOf row) <-> In k (kindFields kind)) /\
  (kind <> Customers -> keysOf row = kindFields kind) /\
  (forall f, In f (kindFields kind) ->
     exists v, assoc f (propsOf row) = Some v /\
               projectField row f = Ok (if is_undefined v then JNull else v)).
Proof.
  intros Hrows Hin. pose proof (assembledRows_In _ _ _ _ _ Hrows Hin) as Hrow.
  destruct kind; destruct Hrow as (x & ->).
  all: split; [reflexivity|].
  all: split; [unfold keysOf; simpl; apply (bool_decide_unpack _); vm_compute; exact I|].
  all: split; [intros k; unfold keysOf; simpl; tauto|].
  all: split; [intros Hk; try reflexivity; congruence|].
  all: intros f Hf.
  - unfold formatOrder. simpl propsOf. each_field Hf.
  - unfold formatProduct. simpl propsOf. each_field Hf.
  - unfold formatCustomer. simpl propsOf. each_field Hf.
  - unfold formatSale. simpl propsOf. each_field Hf.
  - unfold formatInventory. simpl propsOf. each_field Hf.
  - unfold formatVendor. simpl propsOf. each_field Hf.
Qed.

End RowsAndFields.

(** ** What the artifact holds *)

Section ArtifactContent.
Context `{Host}.

Lemma flat_map_const_length {A B} (f : A -> list B) (n : nat) (l : list A) :
  (forall a, length (f a) = n) -> length (flat_map f l) = (length l * n)%nat.
Proof.
  intros Hf. induction l as [|a l IH]; simpl; [reflexivity|].
  rewrite length_app, Hf, IH. reflexivity.
Qed.

Lemma pdfLayout_footer (pageHeight : Z) (title generatedOn : string)
    (fields : list string) (data : list jsval) (doc : PdfDoc) :
  pdfLayout pageHeight title generatedOn fields data = Ok doc ->
  exists body,
    doc = body ++ [(pagesAdded doc,
                    PText 10 ("Total Records: " +:+ Z_to_string (Z.of_nat (length data)))
                          "right")] /\
    pagesAdded body = pagesAdded doc.
Proof.
  unfold pdfLayout.
  destruct (pdfRows_texts pageHeight fields (columnWidths fields) data 0 0 (tableTop + 30))
    as (rows & pE & tE & -> & _ & _ & HpE & _).
  cbn [exn_bind]. intros [= <-].
  destruct (pdfHeader_texts fields 0 (columnWidths fields) tableLeft) as (_ & _ & Hhp).
  set (header := pdfHeader fields 0 (columnWidths fields) tableLeft) in *.
  set (prefix := [(0%nat, PText 20 title "center"); (0%nat, PMoveDown 1);
                  (0%nat, PText 10 ("Generated on: " +:+ generatedOn) "center");
                  (0%nat, PMoveDown 2)]).
  assert (Hadded : forall last, pagesAdded last = 0%nat ->
            pagesAdded (prefix ++ header ++ rows ++ last) = pE).
  { intros last Hl. rewrite !pagesAdded_app, Hhp, Hl. cbn. lia. }
  set (footer := (pE, PText 10 ("Total Records: "
                                  +:+ Z_to_string (Z.of_nat (length data))) "right")).
  assert (Hfoot : pagesAdded (prefix ++ header ++ rows ++ [footer]) = pE)
    by (apply Hadded; reflexivity).
  assert (Hbody : pagesAdded (prefix ++ header ++ rows) = pE).
  { rewrite <- (Hadded [] eq_refl), !app_nil_r. reflexivity. }
  exists (prefix ++ header ++ rows). unfold prefix in *. cbn [app] in *.
  rewrite Hfoot, Hbody. split; [|reflexivity].
  rewrite <- !app_assoc. reflexivity.
Qed.

(** X7. A successful export holds exactly the assembled rows: the CSV
    text is json2csv's header and one line per row; the workbook sheet is
    named after the data type and has the header row and one row per
    assembled row, each with one cell per field; the PDF has one data
    cell per row and field and a footer with the row count; the JSON file
    is the dump of the rows. *)
Theorem artifact_holds_assembled_rows (kind : ReportKind) (filters : gmap string jsval)
    (w : World) (rows : list jsval) :
  assembledRows kind filters w = Ok rows -> writeFault w = None ->
  let fields := kindFields kind in
  let dt := kindType kind in
  (exists w', exportKind kind "csv" filters w = (Ok (artifactPath w dt CSV), w') /\
     files w' !! artifactPath w dt CSV
     = Some (TextFile (join eol (Parser_header fields :: map (json2csv_line fields) rows)))) /\
  (exists w' sheet,
     exportKind kind "excel" filters w = (Ok (artifactPath w dt EXCEL), w') /\
     files w' !! artifactPath w dt EXCEL = Some (XlsxFile sheet) /\
     ws_name sheet = dataType_value dt /\
     ws_rows sheet = map (fun f => JStr (capitalize f)) fields
                     :: map (fun row => map (fun f => excelCell (projected row f)) fields) rows /\
     length (ws_rows sheet) = S (length rows) /\
     Forall (fun r => length r = length fields) (ws_rows sheet)) /\
  (exists w' doc,
     exportKind kind "pdf" filters w = (Ok (artifactPath w dt PDF), w') /\
     files w' !! artifactPath w dt PDF = Some (PdfFile doc) /\
     headerTexts doc = map capitalize fields /\
     length (dataTexts doc) = (length rows * length fields)%nat /\
     In (pagesAdded doc,
         PText 10 ("Total Records: " +:+ Z_to_string (Z.of_nat (length rows))) "right") doc) /\
  (exists w', exportKind kind "json" filters w = (Ok (artifactPath w dt JSON), w') /\
     files w' !! artifactPath w dt JSON = Some (TextFile (JSON_stringify rows))).
Proof.
  intros Hrows Hw fields dt. rewrite !exportKind_run, Hrows, !renderAs_formatOf.
  change (formatOf "csv") with (Some CSV). change (formatOf "excel") with (Some EXCEL).
  change (formatOf "pdf") with (Some PDF). change (formatOf "json") with (Some JSON).
  cbv iota. fold fields. fold dt.
  assert (Hw' : writeFault (count_call w) = None) by exact Hw.
  split; [|split; [|split]].
  - rewrite exportToCsv_run. cbv zeta. rewrite Hw'.
    eexists. split; [reflexivity|]. simpl. apply lookup_insert_eq.
  - rewrite exportToExcel_run by apply kindFields_nonempty. cbv zeta. rewrite Hw'.
    eexists _, _. split; [reflexivity|]. split; [simpl; apply lookup_insert_eq|].
    split; [reflexivity|]. split; [reflexivity|].
    split; [simpl; rewrite length_map; reflexivity|].
    apply sheetRows_lengths.
  - destruct (exportToPdf_run rows fields dt (kindTitle kind) (count_call w))
      as (doc & Hdoc & ->).
    cbv zeta. rewrite Hw'.
    exists (set_files (<[artifactPath (count_call w) dt PDF := PdfFile doc]>
                         (files (count_call w))) (withExportDir (count_call w))), doc.
    split; [reflexivity|]. split; [simpl; apply lookup_insert_eq|].
    destruct (pdfLayout_texts letterHeight (kindTitle kind)
                (Date_toLocaleString (now (count_call w))) fields rows)
      as (doc' & Hdoc' & Hh & Hd).
    rewrite Hdoc in Hdoc'. injection Hdoc' as <-.
    split; [exact Hh|].
    split; [rewrite Hd; apply flat_map_const_length; intros a; apply length_map|].
    destruct (pdfLayout_footer letterHeight (kindTitle kind)
                (Date_toLocaleString (now (count_call w))) fields rows doc Hdoc)
      as (body & Hbody & _).
    rewrite Hbody at 2. apply in_or_app. right. left. reflexivity.
  - rewrite exportToJson_run. cbv zeta. rewrite Hw'.
    eexists. split; [reflexivity|]. simpl. apply lookup_insert_eq.
Qed.

End ArtifactContent.

(** ** Columns of the paginated document *)

Section PdfColumns.
Context `{Host}.
Variable fields : list string.


Lemma nth_columnWidths (j : nat) :
  (j < length fields)%nat -> nth j (columnWidths fields) 0 = (maxWidth / Z.of_nat (length fields)).
Proof.
  unfold columnWidths. generalize (maxWidth / Z.of_nat (length fields)). intros v.
  revert j. induction fields as [|f l IH]; intros j Hj; simpl in *; [lia|].
  destruct j; [reflexivity|]. apply IH. lia.
Qed.

Lemma pdfHeader_columns (rest : list string) :
  forall i left,
    (i + length rest = length fields)%nat -> left = tableLeft + Z.of_nat i * (maxWidth / Z.of_nat (length fields)) ->
    Forall (inColumn (length fields) (maxWidth / Z.of_nat (length fields))) (pdfHeader rest i (columnWidths fields) left).
Proof.
  induction rest as [|f rest IH]; intros i left Hi Hl; simpl; constructor.
  - simpl in Hi. unfold inColumn. simpl.
    rewrite nth_columnWidths by lia.
    repeat split; auto. exists i. split; [lia|exact Hl].
  - simpl in Hi. apply IH; [lia|].
    rewrite nth_columnWidths by lia. lia.
Qed.

Lemma pdfRow_columns (item : jsval) (rowIndex page : nat) (top : Z) (rest : list string) :
  forall i left cells,
    (i + length rest = length fields)%nat -> left = tableLeft + Z.of_nat i * (maxWidth / Z.of_nat (length fields)) ->
    pdfRow item rowIndex page top rest i (columnWidths fields) left = Ok cells ->
    Forall (inColumn (length fields) (maxWidth / Z.of_nat (length fields))) cells.
Proof.
  induction rest as [|f rest IH]; intros i left cells Hi Hl; simpl.
  - intros [= <-]. constructor.
  - simpl in Hi. rewrite projected_spec. cbn [exn_bind].
    destruct (pdfRow item rowIndex page top rest (S i) (columnWidths fields)
                (left + nth i (columnWidths fields) 0)) as [cells'|e] eqn:Hrec;
      cbn [exn_bind]; [|discriminate].
    intros [= <-]. constructor.
    + unfold inColumn. simpl.
      rewrite nth_columnWidths by lia.
      repeat split; auto. exists i. split; [lia|exact Hl].
    + eapply IH; [| |exact Hrec]; [lia|].
      rewrite nth_columnWidths by lia. lia.
Qed.

Lemma pdfRows_columns (pageHeight : Z) (data : list jsval) :
  forall i p t ops pageEnd topEnd,
    pdfRows pageHeight fields (columnWidths fields) data i p t = Ok (ops, pageEnd, topEnd) ->
    Forall (inColumn (length fields) (maxWidth / Z.of_nat (length fields))) ops.
Proof.
  induction data as [|item rest IH]; intros i p t ops pE tE Hrun.
  - simpl in Hrun. injection Hrun as <- <- <-. constructor.
  - rewrite pdfRows_cons in Hrun.
    destruct (pdfRow item i p t fields 0 (columnWidths fields) tableLeft)
      as [cells|e] eqn:Hcells; cbn [exn_bind] in Hrun; [|discriminate].
    cbv zeta in Hrun.
    match type of Hrun with
    | context [pdfRows ?a ?b ?c ?d ?e ?f ?g] =>
        destruct (pdfRows a b c d e f g) as [[[ops' pE'] tE']|] eqn:Hrec;
        cbn [exn_bind] in Hrun; [|discriminate]
    end.
    injection Hrun as <- <- <-.
    rewrite !Forall_app. split; [|split].
    + eapply pdfRow_columns; [| |exact Hcells]; [reflexivity|lia].
    + destruct (t + 25 >? pageHeight - 100); repeat constructor.
    + eapply IH. exact Hrec.
Qed.

(** X8. Every cell of the PDF table, header or data, is one of
    [length fields] equally wide columns: its width is
    floor(500 / columns), its left edge 50 plus a whole number of
    widths, so the table stays between x = 50 and x = 550.  Header cells
    are 30 high and grey, data cells 25 high, white on even rows and light
    grey on odd rows. *)
Theorem pdf_cells_in_equal_columns (pageHeight : Z) (title generatedOn : string)
    (data : list jsval) (doc : PdfDoc) :
  pdfLayout pageHeight title generatedOn fields data = Ok doc ->
  forall q band x y w h fill text,
    In (q, PCell band x y w h fill text) doc ->
    w = 500 / Z.of_nat (length fields) /\
    (exists c, (c < length fields)%nat /\ x = 50 + Z.of_nat c * w) /\
    50 <= x /\ x + w <= 550 /\
    h = bandHeight band /\ fill = bandFill band.
Proof.
  unfold pdfLayout. intros Hdoc.
  destruct (pdfRows pageHeight fields (columnWidths fields) data 0 0 (tableTop + 30))
    as [[[rows pE] tE]|e] eqn:Hrows; cbn [exn_bind] in Hdoc; [|discriminate].
  injection Hdoc as <-.
  assert (Hall : Forall (inColumn (length fields) (maxWidth / Z.of_nat (length fields)))
            ([(0%nat, PText 20 title "center"); (0%nat, PMoveDown 1);
              (0%nat, PText 10 ("Generated on: " +:+ generatedOn) "center");
              (0%nat, PMoveDown 2)]
             ++ pdfHeader fields 0 (columnWidths fields) tableLeft ++ rows
             ++ [(pE, PText 10 ("Total Records: "
                                +:+ Z_to_string (Z.of_nat (length data))) "right")])).
  { rewrite !Forall_app. repeat split.
    - repeat constructor.
    - apply pdfHeader_columns; [reflexivity|lia].
    - eapply pdfRows_columns. exact Hrows.
    - repeat constructor. }
  rewrite List.Forall_forall in Hall.
  intros q band x y w h fill text Hin. apply Hall in Hin.
  unfold inColumn in Hin. simpl in Hin.
  destruct Hin as ((c & Hc & Hx) & -> & -> & ->).
  unfold maxWidth, tableLeft in *.
  assert (Hn : 0 < Z.of_nat (length fields)) by lia.
  assert (Hdiv : Z.of_nat (length fields) * (500 / Z.of_nat (length fields)) <= 500)
    by (apply Z.mul_div_le; lia).
  assert (Hpos : 0 <= 500 / Z.of_nat (length fields)) by (apply Z.div_pos; lia).
  split; [reflexivity|]. split; [eauto|]. subst x.
  split; [nia|]. split; [nia|]. auto.
Qed.

End PdfColumns.

(** ** Rows per page on the default page *)


Section PdfRowsPerPage.
Context `{Host}.
Variable fields : list string.



End PdfRowsPerPage.

(** ** Workbook column widths *)

Section AutoFitFacts.
Context `{Host}.

Lemma cellLength_nonneg (v : jsval) : 0 <= cellLength v.
Proof. unfold cellLength. destruct (truthy v); lia. Qed.

Lemma fold_max_spec (cells : list jsval) :
  forall m0,
    let m := fold_left (fun m v => if cellLength v >? m then cellLength v else m) cells m0 in
    m0 <= m /\ (forall v, In v cells -> cellLength v <= m) /\
    (m = m0 \/ exists v, In v cells /\ m = cellLength v).
Proof.
  induction cells as [|c cells IH]; intros m0; simpl.
  - split; [lia|]. split; [intros v []|auto].
  - destruct (IH (if cellLength c >? m0 then cellLength c else m0)) as (Hle & Hall & Hex).
    destruct (Z.gtb_spec (cellLength c) m0) as [Hgt|Hngt].
    + split; [lia|]. split.
      * intros v [<-|Hv]; [exact Hle|apply Hall, Hv].
      * right. destruct Hex as [->|(v & Hv & ->)]; eauto.
    + split; [lia|]. split.
      * intros v [<-|Hv]; [lia|apply Hall, Hv].
      * destruct Hex as [->|(v & Hv & ->)]; eauto.
Qed.

Lemma autoFitWidth_fits (cells : list jsval) :
  10 <= autoFitWidth cells /\
  (forall v, In v cells -> truthy v = true ->
     Z.of_nat (String.length (toString v)) <= autoFitWidth cells).
Proof.
  unfold autoFitWidth, maxLength.
  destruct (fold_max_spec cells 0) as (_ & Hall & _). cbv zeta in Hall.
  set (m := fold_left _ cells 0) in *.
  destruct (Z.ltb_spec m 10); (split; [lia|]); intros v Hv Ht;
    specialize (Hall v Hv); unfold cellLength in Hall; rewrite Ht in Hall; lia.
Qed.

(** X10. The auto-fitted width of a workbook column is 10 when every
    cell is truthy and shorter than 10 characters, and otherwise the
    longest cell text plus 2, where an empty, zero or false cell counts as
    10 characters: the width is at least 10, never 11, every cell text
    fits, and a column with a falsy cell is at least 12 wide. *)
Theorem autoFitWidth_bounds (cells : list jsval) :
  10 <= autoFitWidth cells /\ autoFitWidth cells <> 11 /\
  (forall v, In v cells -> truthy v = true ->
     Z.of_nat (String.length (toString v)) <= autoFitWidth cells) /\
  (forall v, In v cells -> truthy v = false -> 12 <= autoFitWidth cells) /\
  (autoFitWidth cells = 10 <->
   forall v, In v cells ->
     truthy v = true /\ Z.of_nat (String.length (toString v)) < 10) /\
  (10 < autoFitWidth cells ->
   exists v, In v cells /\ autoFitWidth cells = cellLength v + 2).
Proof.
  unfold autoFitWidth, maxLength.
  destruct (fold_max_spec cells 0) as (Hle & Hall & Hex). cbv zeta in *.
  set (m := fold_left _ cells 0) in *.
  assert (Hlen : forall v, In v cells -> truthy v = true ->
            Z.of_nat (String.length (toString v)) <= m).
  { intros v Hv Ht. specialize (Hall v Hv). unfold cellLength in Hall.
    rewrite Ht in Hall. exact Hall. }
  assert (Hfalsy : forall v, In v cells -> truthy v = false -> 10 <= m).
  { intros v Hv Ht. specialize (Hall v Hv). unfold cellLength in Hall.
    rewrite Ht in Hall. exact Hall. }
  destruct (Z.ltb_spec m 10) as [Hm|Hm].
  - split; [lia|]. split; [lia|].
    split; [intros v Hv Ht; specialize (Hlen v Hv Ht); lia|].
    split; [intros v Hv Ht; specialize (Hfalsy v Hv Ht); lia|].
    split; [|lia].
    split; [|reflexivity]. intros _ v Hv.
    destruct (truthy v) eqn:Ht.
    + split; [reflexivity|]. specialize (Hlen v Hv Ht). lia.
    + specialize (Hfalsy v Hv Ht). lia.
  - split; [lia|]. split; [lia|].
    split; [intros v Hv Ht; specialize (Hlen v Hv Ht); lia|].
    split; [lia|].
    split.
    + split; [lia|]. intros Hshort. exfalso.
      destruct Hex as [Hz|(v & Hv & Hmv)]; [lia|].
      destruct (Hshort v Hv) as [Ht Hl]. unfold cellLength in Hmv. rewrite Ht in Hmv. lia.
    + intros _. destruct Hex as [Hz|(v & Hv & Hmv)]; [lia|].
      exists v. split; [exact Hv|]. lia.
Qed.

End AutoFitFacts.

Lemma autoFitWidth_bounds_witness :
  In (JStr "") [JStr "Name"; JStr ""] /\ truthy (JStr "") = false /\
  12 <= autoFitWidth (H := exampleHost) [JStr "Name"; JStr ""].
Proof.
  split; [right; left; reflexivity|]. split; [reflexivity|].
  destruct (@autoFitWidth_bounds exampleHost [JStr "Name"; JStr ""])
    as (_ & _ & _ & Hfalsy & _).
  apply (Hfalsy (JStr "")); [right; left; reflexivity|reflexivity].
Defined.

Section SheetColumns.
Context `{Host}.

Lemma capitalize_length (f : string) : String.length (capitalize f) = String.length f.
Proof. destruct f; reflexivity. Qed.

Lemma nth_map_nth_error {A B} (g : A -> B) (l : list A) (i : nat) (a : A) (d : B) :
  nth_error l i = Some a -> nth i (map g l) d = g a.
Proof.
  revert i. induction l as [|x l IH]; intros [|i]; simpl; try discriminate.
  - intros [= ->]. reflexivity.
  - apply IH.
Qed.

Lemma sheetColumn_spec (data : list jsval) (fields : list string)
    (dataType : ExportDataType) (sheet : Worksheet) (i : nat) (f : string) :
  excelSheet data fields dataType = Ok sheet -> nth_error fields i = Some f ->
  sheetColumn sheet i
  = JStr (capitalize f) :: map (fun item => excelCell (projected item f)) data.
Proof.
  rewrite excelSheet_spec. intros [= <-] Hf. unfold sheetColumn. simpl.
  rewrite (nth_map_nth_error _ _ _ _ _ Hf). f_equal.
  rewrite map_map. apply map_ext. intros item.
  apply (nth_map_nth_error (fun f0 => excelCell (projected item f0)) _ _ _ _ Hf).
Qed.

(** X11. In the sheet of an export, the column of a field holds its
    capitalized name on top and below it one cell per row, looked up
    under that field; its auto-fitted width is at least 10 and at least
    the length of the field name and of every non-empty cell text. *)
Theorem sheet_column_fits_header_and_cells (data : list jsval) (fields : list string)
    (dataType : ExportDataType) (sheet : Worksheet) (i : nat) (f : string) :
  excelSheet data fields dataType = Ok sheet -> nth_error fields i = Some f ->
  sheetColumn sheet i
    = JStr (capitalize f) :: map (fun item => excelCell (projected item f)) data /\
  10 <= autoFitWidth (sheetColumn sheet i) /\
  Z.of_nat (String.length f) <= autoFitWidth (sheetColumn sheet i) /\
  (forall item, In item data -> truthy (excelCell (projected item f)) = true ->
     Z.of_nat (String.length (toString (excelCell (projected item f))))
     <= autoFitWidth (sheetColumn sheet i)).
Proof.
  intros Hsheet Hf. rewrite (sheetColumn_spec _ _ _ _ _ _ Hsheet Hf).
  split; [reflexivity|].
  destruct (autoFitWidth_fits
              (JStr (capitalize f) :: map (fun item => excelCell (projected item f)) data))
    as (H10 & Hfit).
  split; [exact H10|]. split.
  - destruct f as [|c f]; [simpl; lia|].
    rewrite <- capitalize_length.
    apply (Hfit (JStr (capitalize (String c f)))); [left; reflexivity|reflexivity].
  - intros item Hitem Ht. apply Hfit; [|exact Ht].
    right. apply in_map_iff. eauto.
Qed.

End SheetColumns.

Lemma sheet_column_fits_header_and_cells_witness :
  let data := [JObj [("customerEmail", JStr "someone@example.com")]] in
  exists sheet,
    excelSheet (H := exampleHost) data ["customerEmail"] ORDERS = Ok sheet /\
    nth_error ["customerEmail"] 0 = Some "customerEmail" /\
    13 <= autoFitWidth (H := exampleHost) (sheetColumn sheet 0).
Proof.
  intros data. eexists. split; [reflexivity|]. split; [reflexivity|].
  match goal with |- context [sheetColumn ?s 0] =>
    destruct (@sheet_column_fits_header_and_cells exampleHost data ["customerEmail"] ORDERS
                s 0%nat "customerEmail" eq_refl eq_refl) as (_ & _ & Hname & _)
  end.
  exact Hname.
Defined.

(** ** Formatting of the rows *)

Section Formatting.
Context `{Host}.

Lemma filter_none {A} (p : A -> bool) (l : list A) :
  (forall a, In a l -> p a = false) -> List.filter p l = [].
Proof.
  induction l as [|a l IH]; intros Hall; simpl; [reflexivity|].
  rewrite (Hall a (or_introl eq_refl)). apply IH. intros b Hb. apply Hall. right. exact Hb.
Qed.

(** X12. A customer's order count, total spent and average order value
    are taken from the orders with status DELIVERED or SHIPPED only: an
    order with any other status changes nothing in the row, and a
    customer without such orders gets 0, "0.00" and "0.00" (no division
    by zero). *)
Theorem customer_totals_from_completed_orders (c : Customer) :
  (forall o, isCompleted o = true <-> co_status o = "DELIVERED" \/ co_status o = "SHIPPED") /\
  (forall o, isCompleted o = false ->
     formatCustomer (withOrders c (o :: c_orders c)) = formatCustomer c) /\
  projected (formatCustomer c) "orderCount"
    = num_of_Z (Z.of_nat (length (List.filter isCompleted (c_orders c)))) /\
  ((forall o, In o (c_orders c) -> isCompleted o = false) ->
     projected (formatCustomer c) "orderCount" = num_of_Z 0 /\
     projected (formatCustomer c) "totalSpent" = JStr "0.00" /\
     projected (formatCustomer c) "averageOrderValue" = JStr "0.00").
Proof.
  split.
  { intros o. unfold isCompleted. rewrite orb_true_iff, !String.eqb_eq. reflexivity. }
  split.
  { intros o Ho. unfold formatCustomer, withOrders. simpl. rewrite Ho.
    destruct c; reflexivity. }
  split; [reflexivity|].
  intros Hnone. unfold projected, projectField, formatCustomer. simpl.
  rewrite (filter_none _ _ Hnone). repeat split.
Qed.

(** X13. The inventory status is decided by the quantity alone, with
    the bounds 0, 5 and 20, and agrees with the product report: a product
    is "Out of Stock" in the inventory export exactly when the products
    export says inStock "No". *)
Theorem stock_status_thresholds (p : Product) :
  (stockStatus (p_quantity p) = "Out of Stock" <-> p_quantity p <= 0) /\
  (stockStatus (p_quantity p) = "Low Stock" <-> 1 <= p_quantity p <= 5) /\
  (stockStatus (p_quantity p) = "Medium Stock" <-> 6 <= p_quantity p <= 20) /\
  (stockStatus (p_quantity p) = "Good Stock" <-> 21 <= p_quantity p) /\
  projected (formatInventory p) "status" = JStr (stockStatus (p_quantity p)) /\
  (projected (formatProduct p) "inStock" = JStr "No" <->
   projected (formatInventory p) "status" = JStr "Out of Stock") /\
  (projected (formatProduct p) "inStock" = JStr "Yes" <-> 0 < p_quantity p).
Proof.
  assert (Hin : projected (formatProduct p) "inStock" = yesNo (0 <? p_quantity p))
    by reflexivity.
  assert (Hst : projected (formatInventory p) "status" = JStr (stockStatus (p_quantity p)))
    by reflexivity.
  rewrite Hin, Hst. unfold stockStatus, yesNo.
  destruct (Z.leb_spec (p_quantity p) 0); destruct (Z.leb_spec (p_quantity p) 5);
    destruct (Z.leb_spec (p_quantity p) 20); destruct (Z.ltb_spec 0 (p_quantity p));
    try lia; repeat split; intros; try lia; try discriminate; try reflexivity.
Qed.

Lemma string_drop_length (k : nat) (s : string) :
  String.length (string_drop k s) = (String.length s - k)%nat.
Proof.
  revert s. induction k as [|k IH]; intros [|c s]; simpl; try reflexivity; try lia.
  apply IH.
Qed.

Lemma string_take_drop (k : nat) (s : string) : string_take k s +:+ string_drop k s = s.
Proof.
  revert s. induction k as [|k IH]; intros [|c s]; try reflexivity.
  simpl string_take. simpl string_drop. rewrite append_cons, IH. reflexivity.
Qed.

Lemma toUpperCase_append (a b : string) :
  toUpperCase (a +:+ b) = toUpperCase a +:+ toUpperCase b.
Proof.
  induction a as [|c a IH]; rewrite ?append_nil_l, ?append_cons; [reflexivity|].
  simpl. rewrite IH, append_cons. reflexivity.
Qed.

Lemma toUpperCase_length (s : string) : String.length (toUpperCase s) = String.length s.
Proof. induction s as [|c s IH]; simpl; auto. Qed.

(** X14. The order number of a row is the stored one when it is a
    non-empty string; otherwise it is the upper-cased tail of the id: its
    last 8 characters, or the whole id when that is shorter. *)
Theorem order_number_falls_back_to_id_tail (order : Order) :
  (forall s, o_orderNumber order = Some s -> s <> "" ->
     projected (formatOrder order) "orderNumber" = JStr s) /\
  (o_orderNumber order = None \/ o_orderNumber order = Some "" ->
     exists head tail,
       projected (formatOrder order) "orderNumber" = JStr tail /\
       toUpperCase (o_id order) = head +:+ tail /\
       String.length tail = Nat.min 8 (String.length (o_id order))).
Proof.
  assert (Hp : projected (formatOrder order) "orderNumber"
               = JStr (or_string (o_orderNumber order)
                                 (toUpperCase (last_chars 8 (o_id order)))))
    by reflexivity.
  rewrite Hp. split.
  - intros s Hs Hne. rewrite Hs. unfold or_string. simpl.
    destruct (String.eqb_spec s ""); [contradiction|reflexivity].
  - intros Hnone.
    exists (toUpperCase (string_take (String.length (o_id order) - 8) (o_id order))),
           (toUpperCase (last_chars 8 (o_id order))).
    split; [destruct Hnone as [-> | ->]; reflexivity|].
    unfold last_chars. split.
    + rewrite <- toUpperCase_append, string_take_drop. reflexivity.
    + rewrite toUpperCase_length, string_drop_length. lia.
Qed.

(** X15. A flag filter is on only for the exact string "true": every
    other supplied value, the boolean true included, counts as false.  In
    the inventory export a supplied inStock filter replaces the quantity
    range altogether, whatever minQuantity and maxQuantity say. *)
Theorem flag_filters_want_the_string_true (filters : gmap string jsval) :
  (forall v, flag_filter v = Some true <-> v = JStr "true") /\
  (forall v, flag_filter v = None <-> v = JUndefined) /\
  (forall v, inStockRange v = mkRange None None (Some (Num 0)) <-> v = JStr "true") /\
  (forall v, v <> JStr "true" -> inStockRange v = mkRange None (Some (Num 0)) None) /\
  (filter_get filters "inStock" <> JUndefined ->
     pw_quantity (inventoryWhere filters) = Some (inStockRange (filter_get filters "inStock")) /\
     pw_quantity (productsWhere filters) = Some (inStockRange (filter_get filters "inStock"))).
Proof.
  assert (Heq : forall v, strict_eq_str v "true" = true <-> v = JStr "true").
  { intros v. destruct v; simpl; try (split; [discriminate|intros [=]]).
    rewrite String.eqb_eq. split; [intros ->; reflexivity|intros [= ->]; reflexivity]. }
  split.
  { intros v. rewrite <- Heq. unfold flag_filter.
    destruct v; simpl; split; try discriminate; try (intros [= ->]; reflexivity);
      try (intros ->; reflexivity). }
  split.
  { intros v. unfold flag_filter. destruct v; simpl; split; try discriminate; reflexivity. }
  split.
  { intros v. rewrite <- Heq. unfold inStockRange.
    destruct (strict_eq_str v "true"); split; try discriminate; reflexivity. }
  split.
  { intros v Hv. unfold inStockRange. destruct (strict_eq_str v "true") eqn:Hs; [|reflexivity].
    apply Heq in Hs. contradiction. }
  intros Hdef. unfold inventoryWhere, productsWhere, quantityRange. simpl.
  destruct (filter_get filters "inStock"); try contradiction; simpl; auto.
Qed.

End Formatting.

(** ** The sales buckets partition the selected orders *)

Section Partition.
Context `{Host}.
Variable dateTrunc : SqlDateExpr -> Z -> Z.

Lemma insertGroup_members (key : Z) (o : Sql.OrderRow)
    (groups : list (Z * list Sql.OrderRow)) :
  Permutation (concat (map snd (Sql.insertGroup key o groups)))
              (o :: concat (map snd groups)).
Proof.
  induction groups as [|[k os] rest IH]; simpl; [reflexivity|].
  destruct (key <? k); [reflexivity|].
  destruct (key =? k); simpl.
  - rewrite <- app_assoc. simpl. symmetry. apply Permutation_middle.
  - rewrite IH. symmetry. apply Permutation_middle.
Qed.

Lemma groupBy_members (f : Z -> Z) (rows : list Sql.OrderRow) :
  Permutation (concat (map snd (Sql.groupBy f rows))) rows.
Proof.
  unfold Sql.groupBy.
  assert (Hgen : forall acc,
            Permutation
              (concat (map snd (fold_left (fun groups o =>
                                             Sql.insertGroup (f (Sql.createdAt o)) o groups)
                                          rows acc)))
              (concat (map snd acc) ++ rows)).
  { induction rows as [|o rows IH]; intros acc; simpl.
    - rewrite app_nil_r. reflexivity.
    - rewrite IH, insertGroup_members. simpl. apply Permutation_middle. }
  apply (Hgen []).
Qed.

Lemma insertGroup_keyed (f : Z -> Z) (o : Sql.OrderRow)
    (groups : list (Z * list Sql.OrderRow)) :
  List.Forall (keyed f) groups ->
  List.Forall (keyed f) (Sql.insertGroup (f (Sql.createdAt o)) o groups).
Proof.
  induction groups as [|[k os] rest IH]; simpl; intros Hall.
  - constructor; [|constructor]. split; [discriminate|]. repeat constructor.
  - inversion Hall as [|? ? [Hne Hk] Hrest]; subst. simpl in *.
    destruct (f (Sql.createdAt o) <? k).
    + constructor; [|exact Hall]. split; [discriminate|]. repeat constructor.
    + destruct (Z.eqb_spec (f (Sql.createdAt o)) k) as [Heq|Hneq].
      * constructor; [|exact Hrest]. split; simpl.
        -- destruct os; discriminate.
        -- apply List.Forall_app. split; [exact Hk|]. repeat constructor. exact Heq.
      * constructor; [split; assumption|]. apply IH. exact Hrest.
Qed.

Lemma groupBy_keyed (f : Z -> Z) (rows : list Sql.OrderRow) :
  List.Forall (keyed f) (Sql.groupBy f rows).
Proof.
  unfold Sql.groupBy.
  assert (Hgen : forall acc, List.Forall (keyed f) acc ->
            List.Forall (keyed f)
              (fold_left (fun groups o => Sql.insertGroup (f (Sql.createdAt o)) o groups)
                         rows acc)).
  { induction rows as [|o rows IH]; simpl; intros acc Hacc; [exact Hacc|].
    apply IH, insertGroup_keyed, Hacc. }
  apply Hgen. constructor.
Qed.

(** X16. Evaluated as SQL, the sales query partitions the orders it
    selects (created inside the window, DELIVERED or SHIPPED): the
    buckets' orders taken together are exactly the selected orders, each
    in the bucket of its truncated date, and no bucket is empty.  So every
    row carries its bucket's date, the number of its orders, which is at
    least 1, the sum of their totals and a mean; only the items sum can
    be NULL.  A window whose end lies before its start gives no rows, not
    an error. *)
Theorem sales_buckets_partition_selected_orders (orders : list Sql.OrderRow)
    (q : SalesQuery) (s e : Z) :
  sq_startDate q = Some s -> sq_endDate q = Some e ->
  exists groups,
    Sql.runSalesQuery dateTrunc orders q = Ok (map Sql.aggregate groups) /\
    Permutation (concat (map snd groups)) (List.filter (Sql.selected s e) orders) /\
    List.Forall (fun g => snd g <> [] /\
                   List.Forall (fun o => dateTrunc (sq_dateFormat q) (Sql.createdAt o) = fst g)
                               (snd g)) groups /\
    List.Forall (fun g =>
                   sr_date (Sql.aggregate g) = fst g /\
                   (1 <= length (snd g))%nat /\
                   sr_orders (Sql.aggregate g)
                     = Some (inject_Z (Z.of_nat (length (snd g)))) /\
                   sr_sales (Sql.aggregate g)
                     = Some (sumQ (map Sql.totalAmount (snd g))) /\
                   exists mean, sr_avgordervalue (Sql.aggregate g) = Some mean)
                groups /\
    (e < s -> groups = []).
Proof.
  intros Hs He. unfold Sql.runSalesQuery. rewrite Hs, He.
  eexists. split; [reflexivity|].
  split; [apply groupBy_members|].
  split; [apply groupBy_keyed|].
  split.
  - eapply List.Forall_impl; [|apply groupBy_keyed].
    intros [k os] [Hne _]. simpl in Hne. unfold Sql.aggregate. simpl.
    split; [reflexivity|]. split; [destruct os; [contradiction|simpl; lia]|].
    split; [reflexivity|]. split; [reflexivity|]. eexists. reflexivity.
  - intros Hinv. rewrite filter_none; [reflexivity|].
    intros o _. unfold Sql.selected.
    destruct (Z.leb_spec s (Sql.createdAt o)); destruct (Z.leb_spec (Sql.createdAt o) e);
      simpl; try reflexivity; lia.
Qed.

End Partition.

(** ** The properties at sample inputs *)

Lemma rows_carry_every_field_witness :
  let w := exampleWorld sampleSource 0 in
  let row := formatProduct (H := exampleHost) sampleProduct in
  assembledRows (H := exampleHost) Products ∅ w = Ok [row] /\ In row [row] /\
  keysOf row = productsFields /\
  projectField (H := exampleHost) row "averageRating" = Ok (JStr "4.50").
Proof.
  intros w row.
  assert (Hrows : assembledRows (H := exampleHost) Products ∅ w = Ok [row]) by reflexivity.
  assert (Hin : In row [row]) by (left; reflexivity).
  destruct (@rows_carry_every_field exampleHost Products ∅ w [row] row Hrows Hin)
    as (_ & _ & _ & Hkeys & Hfield).
  split; [exact Hrows|]. split; [exact Hin|].
  split; [apply Hkeys; discriminate|].
  destruct (Hfield "averageRating") as (v & Hv & Hp);
    [unfold kindFields, productsFields; simpl; tauto|].
  rewrite Hp. vm_compute in Hv. injection Hv as <-. reflexivity.
Defined.

Lemma artifact_holds_assembled_rows_witness :
  let w := exampleWorld sampleSource 0 in
  assembledRows (H := exampleHost) Orders ∅ w = Ok [formatOrder (H := exampleHost) sampleOrder] /\
  writeFault w = None /\
  exists w' sheet,
    exportKind (H := exampleHost) Orders "excel" ∅ w
      = (Ok (artifactPath w ORDERS EXCEL), w') /\
    files w' !! artifactPath w ORDERS EXCEL = Some (XlsxFile sheet) /\
    length (ws_rows sheet) = 2%nat.
Proof.
  intros w.
  assert (Hrows : assembledRows (H := exampleHost) Orders ∅ w
                  = Ok [formatOrder (H := exampleHost) sampleOrder]) by reflexivity.
  split; [exact Hrows|]. split; [reflexivity|].
  destruct (@artifact_holds_assembled_rows exampleHost Orders ∅ w _ Hrows eq_refl)
    as (_ & (w' & sheet & Hrun & Hfile & _ & _ & Hlen & _) & _).
  exists w', sheet. split; [exact Hrun|]. split; [exact Hfile|exact Hlen].
Defined.

Lemma pdf_cells_in_equal_columns_witness :
  exists doc,
    pdfLayout (H := exampleHost) letterHeight "T" "now" ["id"; "name"; "sku"]
      [JObj [("id", JStr "a")]] = Ok doc /\
    In (0%nat, PCell (DataBand 0) 382 180 166 25 "#ffffff" "") doc /\
    382 + 166 <= 550.
Proof.
  eexists. split; [reflexivity|].
  assert (Hin : In (0%nat, PCell (DataBand 0) 382 180 166 25 "#ffffff" "")
                   [(0%nat, PText 20 "T" "center"); (0%nat, PMoveDown 1);
                    (0%nat, PText 10 "Generated on: now" "center"); (0%nat, PMoveDown 2);
                    (0%nat, PCell HeaderBand 50 150 166 30 "#e0e0e0" "Id");
                    (0%nat, PCell HeaderBand 216 150 166 30 "#e0e0e0" "Name");
                    (0%nat, PCell HeaderBand 382 150 166 30 "#e0e0e0" "Sku");
                    (0%nat, PCell (DataBand 0) 50 180 166 25 "#ffffff" "a");
                    (0%nat, PCell (DataBand 0) 216 180 166 25 "#ffffff" "");
                    (0%nat, PCell (DataBand 0) 382 180 166 25 "#ffffff" "");
                    (0%nat, PText 10 "Total Records: 1" "right")])
    by (simpl; tauto).
  split; [exact Hin|].
  destruct (@pdf_cells_in_equal_columns exampleHost ["id"; "name"; "sku"] letterHeight
              "T" "now" [JObj [("id", JStr "a")]] _ eq_refl _ _ _ _ _ _ _ _ Hin)
    as (_ & _ & _ & Hfit & _).
  exact Hfit.
Defined.


Lemma customer_totals_from_completed_orders_witness :
  (forall o, In o (c_orders sampleCustomer) -> isCompleted o = false) /\
  projected (H := exampleHost) (formatCustomer (H := exampleHost) sampleCustomer) "totalSpent" = JStr "0.00".
Proof.
  assert (Hnone : forall o, In o (c_orders sampleCustomer) -> isCompleted o = false).
  { intros o [<-|[<-|[]]]; reflexivity. }
  split; [exact Hnone|].
  destruct (@customer_totals_from_completed_orders exampleHost sampleCustomer)
    as (_ & _ & _ & Hzero).
  destruct (Hzero Hnone) as (_ & Hspent & _). exact Hspent.
Defined.

Lemma order_number_falls_back_to_id_tail_witness :
  o_orderNumber sampleOrder = None /\
  exists head tail,
    projected (H := exampleHost) (formatOrder (H := exampleHost) sampleOrder) "orderNumber" = JStr tail /\
    "CKV9X2AB7" = head +:+ tail /\ String.length tail = 8%nat.
Proof.
  split; [reflexivity|].
  destruct (@order_number_falls_back_to_id_tail exampleHost sampleOrder) as (_ & Htail).
  destruct (Htail (or_introl eq_refl)) as (head & tail & Hp & Hup & Hlen).
  exists head, tail. split; [exact Hp|]. split; [exact Hup|exact Hlen].
Defined.

Lemma flag_filters_want_the_string_true_witness :
  let filters : gmap string jsval :=
    {[ "inStock" := JBool true; "minQuantity" := JStr "5" ]} in
  filter_get filters "inStock" <> JUndefined /\
  pw_quantity (inventoryWhere (H := exampleHost) filters)
  = Some (mkRange None (Some (Num 0)) None).
Proof.
  intros filters.
  assert (Hdef : filter_get filters "inStock" <> JUndefined) by (vm_compute; discriminate).
  split; [exact Hdef|].
  destruct (@flag_filters_want_the_string_true exampleHost filters) as (_ & _ & _ & _ & Hin).
  destruct (Hin Hdef) as [Hq _]. rewrite Hq. reflexivity.
Defined.

Lemma sales_buckets_partition_selected_orders_witness :
  exists groups,
    Sql.runSalesQuery (H := exampleHost) utcTrunc threeDays
      (mkSalesQuery SqlDate (Some 1704067200000) (Some 1706659200000))
      = Ok (map (Sql.aggregate (H := exampleHost)) groups) /\
    length (concat (map snd groups)) = 4%nat.
Proof.
  destruct (@sales_buckets_partition_selected_orders exampleHost utcTrunc threeDays
              (mkSalesQuery SqlDate (Some 1704067200000) (Some 1706659200000))
              1704067200000 1706659200000 eq_refl eq_refl)
    as (groups & Hrun & Hperm & _).
  exists groups. split; [exact Hrun|].
  rewrite (Permutation_length Hperm). reflexivity.
Defined.

(** ** From a failed export to the HTTP response *)

Section HandlerFacts.
Context `{Host}.
Variable translateError : string -> string -> string.
Variable NODE_ENV : jsval.

Lemma classify_statuses (err : Handler.Thrown) (language : string)
    (statusCode : Z) (msg : string) (details : Handler.Details) :
  Handler.classify translateError err language = Ok (statusCode, msg, details) ->
  Handler.t_class err = Handler.IsApiError statusCode \/
  In statusCode [400; 401; 413; 500].
Proof.
  unfold Handler.classify. destruct (Handler.t_class err); simpl.
  1-4: intros [= <- _ _]; auto.
  repeat match goal with
         | |- context [if ?b then _ else _] => destruct b
         | |- context [match ?k with None => _ | Some _ => _ end] => destruct k as [[|[? ?] ?]|]
         end; intros [= <- _ _] || discriminate; auto 8.
Qed.

(** X18. The handler answers every error it is given, except that it
    throws a TypeError itself for a MongoServerError with code 11000 and
    no keyValue.  Its status is the ApiError's own or one of 400, 401,
    413, 500; name, details and stack are sent only when NODE_ENV is
    "development"; an error of no known class and name gets 500 with the
    translated server message, never its own message. *)
Theorem errorHandler_outcomes (err : Handler.Thrown) (req : Handler.Request) :
  let language := or_string (Handler.req_language req) "en" in
  ((exists e, Handler.errorHandler translateError NODE_ENV err req = Throw e) <->
   Handler.t_class err = Handler.IsOther /\ Handler.t_name err = "MongoServerError" /\
   is_true (Handler.is_11000 (Handler.t_code err)) /\ Handler.t_keyValue err = None) /\
  (forall resp, Handler.errorHandler translateError NODE_ENV err req = Ok resp ->
     (Handler.t_class err = Handler.IsApiError (Handler.r_statusCode resp) \/
      In (Handler.r_statusCode resp) [400; 401; 413; 500]) /\
     Handler.r_status resp = "error" /\
     Handler.r_requestId resp = Handler.req_id req /\
     (Handler.r_error resp = None <-> strict_eq_str NODE_ENV "development" = false) /\
     (forall s, Handler.t_class err = Handler.IsApiError s ->
        Handler.r_statusCode resp = s /\ Handler.r_message resp = Handler.t_message err) /\
     (Handler.t_class err = Handler.IsOther -> ~ In (Handler.t_name err) specialNames ->
        Handler.r_statusCode resp = 500 /\
        Handler.r_message resp = translateError "server" language)).
Proof.
  intros language. unfold Handler.errorHandler. fold language. split.
  - unfold Handler.classify.
    destruct (Handler.t_class err) eqn:Hc; simpl;
      try (split; [intros (e & He); discriminate He|intros (Hk & _); discriminate Hk]).
    destruct (String.eqb_spec (Handler.t_name err) "MongoServerError") as [Hn|Hn]; simpl.
    + destruct (Handler.is_11000 (Handler.t_code err)) eqn:Hcode; simpl.
      * destruct (Handler.t_keyValue err) as [[|[k v] rest]|]; simpl.
        -- split; [intros (e & He); discriminate He|intros (_ & _ & _ & Hkv); discriminate Hkv].
        -- split; [intros (e & He); discriminate He|intros (_ & _ & _ & Hkv); discriminate Hkv].
        -- split; [intros _; repeat split; auto|eauto].
      * split; [|intros (_ & _ & Hf & _); discriminate Hf].
        intros (e & He). exfalso. revert He.
        repeat match goal with |- context [if ?b then _ else _] => destruct b end;
          discriminate.
    + split; [|intros (_ & Hname & _); contradiction].
      intros (e & He). exfalso. revert He.
      repeat match goal with |- context [if ?b then _ else _] => destruct b end;
        discriminate.
  - intros resp.
    destruct (Handler.classify translateError err language) as [[[code msg] details]|e]
      eqn:Hcls; cbn [exn_bind]; [|discriminate].
    intros [= <-]. simpl.
    split; [eapply classify_statuses; exact Hcls|].
    split; [reflexivity|]. split; [reflexivity|].
    split; [destruct (strict_eq_str NODE_ENV "development"); split; congruence|].
    split.
    + intros s Hs. unfold Handler.classify in Hcls. rewrite Hs in Hcls.
      injection Hcls as <- <- _. auto.
    + intros Hother Hname. unfold Handler.classify in Hcls. rewrite Hother in Hcls.
      unfold specialNames in Hname. simpl in Hname.
      repeat match type of Hcls with
             | context [String.eqb (Handler.t_name err) ?s] =>
                 destruct (String.eqb_spec (Handler.t_name err) s) as [Heq|_];
                 [exfalso; apply Hname; rewrite Heq; tauto|]
             end.
      simpl in Hcls. injection Hcls as <- <- _. auto.
Qed.

Lemma errorHandler_api_error (e : JsError) (name : string) (stack : jsval)
    (req : Handler.Request) (msg : string) (statusCode : Z) :
  e = ApiError msg statusCode ->
  exists resp,
    Handler.errorHandler translateError NODE_ENV (asThrown e name stack) req = Ok resp /\
    Handler.r_statusCode resp = statusCode /\ Handler.r_message resp = msg.
Proof. intros ->. eexists. repeat split; reflexivity. Qed.

(** X17. Through the handler, an export with an unrecognized format is
    answered with status 400 and the message "Unsupported export
    format: ..."; an export whose write fails with status 500 and the
    renderer's message; an export whose data source fails, with an error
    of no special name, with status 500 and the translated server
    message, not the data source's. *)
Theorem export_failure_responses (kind : ReportKind) (format : string)
    (filters : gmap string jsval) (w : World) (req : Handler.Request)
    (name : string) (stack : jsval) :
  let respond e := Handler.errorHandler translateError NODE_ENV (asThrown e name stack) req in
  (formatOf format = None -> sourceAnswer kind filters w = Ok tt ->
     exists e w' resp,
       exportKind kind format filters w = (Throw e, w') /\ respond e = Ok resp /\
       Handler.r_statusCode resp = 400 /\
       Handler.r_message resp = "Unsupported export format: " +:+ format) /\
  (forall fmt k, formatOf format = Some fmt -> sourceAnswer kind filters w = Ok tt ->
     writeFault w = Some k ->
     exists e w' resp,
       exportKind kind format filters w = (Throw e, w') /\ respond e = Ok resp /\
       Handler.r_statusCode resp = 500 /\
       Handler.r_message resp = "Failed to export data to " +:+ formatLabel fmt +:+ ": "
                                +:+ "ENOSPC: no space left on device, write") /\
  (forall msg, sourceAnswer kind filters w = Throw (DbError msg) ->
     ~ In name specialNames ->
     exists w' resp,
       exportKind kind format filters w = (Throw (DbError msg), w') /\
       respond (DbError msg) = Ok resp /\
       Handler.r_statusCode resp = 500 /\
       Handler.r_message resp
       = translateError "server" (or_string (Handler.req_language req) "en")).
Proof.
  intros respond. rewrite exportKind_run, sourceAnswer_assembled.
  destruct (assembledRows kind filters w) as [rows|e0]; simpl.
  - split; [|split; [|intros msg Hs; discriminate Hs]].
    + intros Hf _. rewrite renderAs_formatOf, Hf.
      destruct (errorHandler_api_error
                  (ApiError ("Unsupported export format: " +:+ format) 400)
                  name stack req _ _ eq_refl) as (resp & Hr & Hc & Hm).
      unfold throw. eexists _, _, resp. split; [reflexivity|]. auto.
    + intros fmt k Hf _ Hw.
      destruct (renderAs_fault format fmt rows (kindFields kind) (kindType kind)
                  (kindTitle kind) (count_call w) k (kindFields_nonempty kind) Hf Hw)
        as (c & _ & ->).
      destruct (errorHandler_api_error
                  (ApiError ("Failed to export data to " +:+ formatLabel fmt +:+ ": "
                             +:+ "ENOSPC: no space left on device, write") 500)
                  name stack req _ _ eq_refl) as (resp & Hr & Hc & Hm).
      eexists _, _, resp. split; [reflexivity|]. auto.
  - split; [intros _ Hs; discriminate Hs|].
    split; [intros fmt k _ Hs; discriminate Hs|].
    intros msg [= ->] Hname.
    unfold respond, Handler.errorHandler, Handler.classify. simpl.
    unfold specialNames in Hname. simpl in Hname.
    repeat match goal with
           | |- context [String.eqb name ?s] =>
               destruct (String.eqb_spec name s) as [Heq|_];
               [exfalso; apply Hname; rewrite Heq; tauto|]
           end.
    simpl. eexists _, _. repeat split.
Qed.

End HandlerFacts.

Lemma errorHandler_outcomes_witness :
  let err := Handler.mkThrown Handler.IsOther "PrismaClientKnownRequestError"
               "relation does not exist" JUndefined JUndefined JUndefined None in
  let req := Handler.mkRequest (JStr "req-1") None in
  Handler.t_class err = Handler.IsOther /\ ~ In (Handler.t_name err) specialNames /\
  exists resp,
    Handler.errorHandler (H := exampleHost) exampleTranslate (JStr "production") err req
      = Ok resp /\
    Handler.r_statusCode resp = 500 /\ Handler.r_message resp = "server@en".
Proof.
  intros err req.
  assert (Hname : ~ In (Handler.t_name err) specialNames).
  { simpl. intros Hn. repeat (destruct Hn as [Hn|Hn]; [discriminate Hn|]). exact Hn. }
  split; [reflexivity|]. split; [exact Hname|].
  eexists. split; [reflexivity|].
  match goal with |- Handler.r_statusCode ?resp = _ /\ _ =>
    destruct (@errorHandler_outcomes exampleHost exampleTranslate (JStr "production") err req)
      as (_ & Hresp);
    destruct (Hresp resp eq_refl) as (_ & _ & _ & _ & _ & Hgeneric)
  end.
  exact (Hgeneric eq_refl Hname).
Defined.

Lemma export_failure_responses_witness :
  let w := exampleWorld emptySource 0 in
  let req := Handler.mkRequest (JStr "req-2") (Some "de") in
  formatOf "xml" = None /\ sourceAnswer (H := exampleHost) Orders ∅ w = Ok tt /\
  exists e w' resp,
    exportKind (H := exampleHost) Orders "xml" ∅ w = (Throw e, w') /\
    Handler.errorHandler (H := exampleHost) exampleTranslate (JStr "production")
      (asThrown e "Error" JUndefined) req = Ok resp /\
    Handler.r_statusCode resp = 400 /\
    Handler.r_message resp = "Unsupported export format: xml".
Proof.
  intros w req.
  assert (Hs : sourceAnswer (H := exampleHost) Orders ∅ w = Ok tt) by reflexivity.
  split; [reflexivity|]. split; [exact Hs|].
  destruct (@export_failure_responses exampleHost exampleTranslate (JStr "production")
              Orders "xml" ∅ w req "Error" JUndefined) as (Hbad & _).
  exact (Hbad eq_refl Hs).
Defined.
